(** * The USB transport of the LoRa concentrator HAL, and the STTS751 stub

    A shallow embedding of [libloragw/src/loragw_usb.c] and
    [libloragw/src/loragw_stts751.c].

    The C functions become functions of a small state-and-error monad over
    a [world]: the process memory, the descriptor table, the terminal
    attributes the kernel holds for each descriptor, the global request
    buffer [buf_req], and the trace of the calls made to the MCU relay.
    [None] stands for undefined behaviour of the C program (an access out
    of an array, a read through a dangling pointer, ...).  Whatever the
    file calls but does not define (the kernel, libc's allocator, the
    [mcu_*] relay functions) is a field of the record [externals]: its
    answer may depend on the whole world, so also on the history of calls.

    Diagnostic output ([printf], [DEBUG_MSG], [DEBUG_PRINTF]) is not part
    of the embedding. *)

From Stdlib Require Import ZArith Lia List String.
From stdpp Require Import base numbers option list gmap sets strings.

Open Scope Z_scope.

(** ** Machine integers *)

(** Conversion to [uint16_t]: the value modulo 2 ^ 16. *)
Definition u16 (z : Z) : Z := z mod 65536.

(** ** Status codes *)

(** Modelled from the spec: [LGW_USB_SUCCESS] and [LGW_USB_ERROR] are
    declared in [loragw_usb.h], which is not among the sources.  The spec
    speaks of one uniform error code; the register operations return it as
    the literal [-1], and success as the literal [0]. *)
Definition LGW_USB_SUCCESS : Z := 0.
Definition LGW_USB_ERROR : Z := -1.

(** Modelled from the spec: [LGW_I2C_SUCCESS] is declared in
    [loragw_i2c.h], which is not among the sources; the stub "returns
    success", and success is 0 throughout the library. *)
Definition LGW_I2C_SUCCESS : Z := 0.

(** ** Terminal attributes *)

(** [struct termios]; the speeds set by [cfsetispeed] and [cfsetospeed]
    are kept as fields of their own, and [c_cc] is the array of [NCCS]
    control characters. *)
Record termios := Termios {
  c_iflag : Z;
  c_oflag : Z;
  c_cflag : Z;
  c_lflag : Z;
  c_cc : list Z;
  c_ispeed : Z;
  c_ospeed : Z
}.

(** The constants of [<termios.h>], with their values on Linux. *)
Module Termios.
Definition NCCS : nat := 32.
Definition VTIME : nat := 5.
Definition VMIN : nat := 6.
Definition IGNBRK : Z := 0x1.
Definition ICRNL : Z := 0x100.
Definition IXON : Z := 0x400.
Definition IXANY : Z := 0x800.
Definition IXOFF : Z := 0x1000.
Definition CSIZE : Z := 0x30.
Definition CS8 : Z := 0x30.
Definition CSTOPB : Z := 0x40.
Definition CREAD : Z := 0x80.
Definition PARENB : Z := 0x100.
Definition CLOCAL : Z := 0x800.
Definition B115200 : Z := 0x1002.
Definition B57600 : Z := 0x1001.
Definition MAX_BAUD : Z := 0x100F.
Definition CBAUD : Z := 0x100F.
Definition CBAUDEX : Z := 0x1000.
Definition IBAUD0 : Z := 0x80000000.
End Termios.
Import Termios.

(** [memset(&tty, 0, sizeof tty)] *)
Definition termios_zero : termios :=
  Termios 0 0 0 0 (replicate NCCS 0) 0 0.

Definition set_c_iflag (v : Z) (t : termios) : termios :=
  Termios v (c_oflag t) (c_cflag t) (c_lflag t) (c_cc t) (c_ispeed t) (c_ospeed t).
Definition set_c_oflag (v : Z) (t : termios) : termios :=
  Termios (c_iflag t) v (c_cflag t) (c_lflag t) (c_cc t) (c_ispeed t) (c_ospeed t).
Definition set_c_cflag (v : Z) (t : termios) : termios :=
  Termios (c_iflag t) (c_oflag t) v (c_lflag t) (c_cc t) (c_ispeed t) (c_ospeed t).
Definition set_c_lflag (v : Z) (t : termios) : termios :=
  Termios (c_iflag t) (c_oflag t) (c_cflag t) v (c_cc t) (c_ispeed t) (c_ospeed t).
(** [tty.c_cc[i] = v] *)
Definition set_c_cc (i : nat) (v : Z) (t : termios) : termios :=
  Termios (c_iflag t) (c_oflag t) (c_cflag t) (c_lflag t) (<[i := v]> (c_cc t))
          (c_ispeed t) (c_ospeed t).

(** The speed functions as glibc has them on Linux.  A speed that is no
    [B...] constant is refused and the attributes stay (the source does
    not look at the result).  Otherwise the speed goes to the speed field
    and to the CBAUD bits of [c_cflag]; [cfsetispeed] also keeps in
    [c_iflag] the mark IBAUD0 of an input speed of 0. *)
Definition speed_refused (speed : Z) : bool :=
  negb (Z.land speed (Z.lnot CBAUD) =? 0)
  && ((speed <? B57600) || (MAX_BAUD <? speed)).

Definition cfsetospeed (speed : Z) (t : termios) : termios :=
  if speed_refused speed then t
  else
    Termios (c_iflag t) (c_oflag t)
            (Z.lor (Z.land (c_cflag t) (Z.lnot (Z.lor CBAUD CBAUDEX))) speed)
            (c_lflag t) (c_cc t) (c_ispeed t) speed.

Definition cfsetispeed (speed : Z) (t : termios) : termios :=
  if speed_refused speed then t
  else if speed =? 0 then
    Termios (Z.lor (c_iflag t) IBAUD0) (c_oflag t) (c_cflag t)
            (c_lflag t) (c_cc t) speed (c_ospeed t)
  else
    Termios (Z.land (c_iflag t) (Z.lnot IBAUD0)) (c_oflag t)
            (Z.lor (Z.land (c_cflag t) (Z.lnot (Z.lor CBAUD CBAUDEX))) speed)
            (c_lflag t) (c_cc t) speed (c_ospeed t).

(** ** The world *)

(** A memory cell: an [int], a byte, a pointer ([None] is [NULL]), or a
    cell that was allocated and never written. *)
Inductive val :=
  | VUninit
  | VInt (z : Z)
  | VByte (b : Z)
  | VPtr (p : option Z).

(** The calls made to the MCU relay, each with what it answered. *)
Inductive event :=
  | EvPing (fd rc : Z) (version : list Z)
  | EvGpio (fd port pin level rc : Z)
  | EvSpi (fd : Z) (out : list Z) (size : Z) (rc : Z) (reply : list Z).

Record world := World {
  heap : gmap Z val;        (* the allocated cells of the process *)
  fds : gset Z;             (* the descriptors open in the process *)
  ttys : gmap Z termios;    (* attributes of the descriptors that are terminals *)
  buf_req : list Z;         (* the global request buffer *)
  rand_seed : Z;            (* the seed given to [srand] *)
  trace : list event        (* the relay calls so far, oldest first *)
}.

Definition with_heap (h : gmap Z val) (w : world) : world :=
  World h (fds w) (ttys w) (buf_req w) (rand_seed w) (trace w).
Definition with_fds (s : gset Z) (w : world) : world :=
  World (heap w) s (ttys w) (buf_req w) (rand_seed w) (trace w).
Definition with_ttys (t : gmap Z termios) (w : world) : world :=
  World (heap w) (fds w) t (buf_req w) (rand_seed w) (trace w).
Definition with_buf_req (b : list Z) (w : world) : world :=
  World (heap w) (fds w) (ttys w) b (rand_seed w) (trace w).
Definition with_rand_seed (s : Z) (w : world) : world :=
  World (heap w) (fds w) (ttys w) (buf_req w) s (trace w).
Definition log (e : event) (w : world) : world :=
  World (heap w) (fds w) (ttys w) (buf_req w) (rand_seed w) (trace w ++ [e]).

(** What the file calls and does not define. *)
Record externals := Externals {
  (* libc *)
  malloc_fails : world → bool;
  (* the kernel: [open] gives a descriptor or a negative number, and the
     attributes of the device when it is a terminal *)
  open_fd : world → string → Z;
  open_tty : world → string → option termios;
  close_rc : world → Z → Z;
  tcgetattr_rc : world → Z → Z;
  tcsetattr_rc : world → Z → termios → Z;
  (* loragw_mcu: the relay; [mcu_ping] gives its return code and the
     [version] array of the [s_ping_info] it fills, [mcu_spi_access] its
     return code and what it wrote to [in_buf] *)
  mcu_version_string : list Z;
  ping_reply : world → Z → Z * list Z;
  gpio_write_rc : world → Z → Z → Z → Z → Z;
  spi_access_reply : world → Z → list Z → Z → Z * list Z
}.

(** ** The monad *)

Definition M (A : Type) : Type := world → option (A * world).

Definition ret {A} (a : A) : M A := λ w, Some (a, w).
Definition bind {A B} (m : M A) (k : A → M B) : M B :=
  λ w, match m w with
       | Some (a, w') => k a w'
       | None => None
       end.
(** Undefined behaviour. *)
Definition undef {A} : M A := λ _, None.
Definition gets {A} (f : world → A) : M A := λ w, Some (f w, w).
Definition modify (f : world → world) : M unit := λ w, Some (tt, f w).

Declare Scope usb_scope.
Delimit Scope usb_scope with usb.
Notation "x <- c1 ;; c2" := (bind c1 (λ x, c2))
  (at level 100, c1 at next level, right associativity) : usb_scope.
Notation "c1 ;; c2" := (bind c1 (λ _, c2))
  (at level 100, right associativity) : usb_scope.
Open Scope usb_scope.

(** ** libc and the kernel *)

Section Usb.
Variable E : externals.

(** [malloc(sizeof(int))]: [NULL], or a cell that was not allocated. *)
Definition malloc : M (option Z) := λ w,
  if malloc_fails E w then Some (None, w)
  else let l := fresh (dom (heap w)) in
       Some (Some l, with_heap (<[l := VUninit]> (heap w)) w).

(** [free(p)] for a non-null [p]. *)
Definition free (l : Z) : M unit := λ w,
  match heap w !! l with
  | Some _ => Some (tt, with_heap (delete l (heap w)) w)
  | None => None
  end.

(** a store through the pointer [p] *)
Definition store (l : Z) (v : val) : M unit := λ w,
  match heap w !! l with
  | Some _ => Some (tt, with_heap (<[l := v]> (heap w)) w)
  | None => None
  end.

(** a load of the [int] that [p] points to *)
Definition load_int (l : Z) : M Z := λ w,
  match heap w !! l with
  | Some (VInt z) => Some (z, w)
  | _ => None
  end.

(** a load of the byte that [p] points to *)
Definition load_byte (l : Z) : M Z := λ w,
  match heap w !! l with
  | Some (VByte b) => Some (b, w)
  | _ => None
  end.

(** [sprintf(portname, "%s", com_path)] into [char portname[n]] *)
Definition sprintf_s (n : nat) (s : string) : M string :=
  if decide (String.length s < n)%nat then ret s else undef.

(** [open(portname, O_RDWR | O_NOCTTY | O_SYNC)] *)
Definition open (portname : string) : M Z := λ w,
  let fd := open_fd E w portname in
  if fd <? 0 then Some (fd, w)
  else Some (fd, with_ttys (match open_tty E w portname with
                            | Some t => <[fd := t]> (ttys w)
                            | None => delete fd (ttys w)
                            end)
                   (with_fds ({[fd]} ∪ fds w) w)).

(** [close(fd)] on Linux: the descriptor is released whatever the call
    answers; a negative answer reports an error met on the way, or that
    [fd] was not open. *)
Definition close (fd : Z) : M Z := λ w,
  let a := close_rc E w fd in
  Some (a, with_ttys (delete fd (ttys w)) (with_fds (fds w ∖ {[fd]}) w)).

(** [tcgetattr(fd, &tty)]: on success [tty] holds the attributes of
    [fd]; it fails when [fd] is no terminal. *)
Definition tcgetattr (fd : Z) (tty : termios) : M (Z * termios) := λ w,
  match ttys w !! fd with
  | Some t =>
      let rc := tcgetattr_rc E w fd in
      if rc =? 0 then Some ((0, t), w) else Some ((rc, tty), w)
  | None => Some ((-1, tty), w)
  end.

(** [tcsetattr(fd, TCSANOW, &tty)]: on success the attributes of [fd]
    are those of [tty]. *)
Definition tcsetattr (fd : Z) (tty : termios) : M Z := λ w,
  match ttys w !! fd with
  | Some _ =>
      let rc := tcsetattr_rc E w fd tty in
      if rc =? 0 then Some (0, with_ttys (<[fd := tty]> (ttys w)) w)
      else Some (rc, w)
  | None => Some (-1, w)
  end.

(** [srand(seed)] *)
Definition srand (seed : Z) : M unit := modify (with_rand_seed seed).

(** ** loragw_usb.c: private functions *)

Definition set_interface_attribs_linux (fd speed : Z) : M Z :=
  let tty := termios_zero in
  r <- tcgetattr fd tty ;;
  let '(rc, tty) := r in
  if negb (rc =? 0) then ret LGW_USB_ERROR
  else
    let tty := cfsetospeed speed tty in
    let tty := cfsetispeed speed tty in
    (* Control Modes *)
    let tty := set_c_cflag (Z.lor (Z.land (c_cflag tty) (Z.lnot CSIZE)) CS8) tty in
    let tty := set_c_cflag (Z.lor (c_cflag tty) CLOCAL) tty in
    let tty := set_c_cflag (Z.lor (c_cflag tty) CREAD) tty in
    let tty := set_c_cflag (Z.land (c_cflag tty) (Z.lnot PARENB)) tty in
    let tty := set_c_cflag (Z.land (c_cflag tty) (Z.lnot CSTOPB)) tty in
    (* Input Modes *)
    let tty := set_c_iflag (Z.land (c_iflag tty) (Z.lnot IGNBRK)) tty in
    let tty := set_c_iflag
      (Z.land (c_iflag tty) (Z.lnot (Z.lor (Z.lor (Z.lor IXON IXOFF) IXANY) ICRNL))) tty in
    (* Output Modes *)
    let tty := set_c_oflag (Z.land (c_oflag tty) (Z.lnot IGNBRK)) tty in
    let tty := set_c_oflag
      (Z.land (c_oflag tty) (Z.lnot (Z.lor (Z.lor (Z.lor IXON IXOFF) IXANY) ICRNL))) tty in
    (* Local Modes *)
    let tty := set_c_lflag 0 tty in
    (* Settings for non-canonical mode *)
    let tty := set_c_cc VMIN 0 tty in
    let tty := set_c_cc VTIME 50 tty in
    rc <- tcsetattr fd tty ;;
    if negb (rc =? 0) then ret LGW_USB_ERROR
    else ret LGW_USB_SUCCESS.

(** configure serial interface to be read blocking or not *)
Definition set_blocking_linux (fd : Z) (blocking : bool) : M Z :=
  let tty := termios_zero in
  r <- tcgetattr fd tty ;;
  let '(rc, tty) := r in
  if negb (rc =? 0) then ret LGW_USB_ERROR
  else
    let tty := set_c_cc VMIN (if blocking then 1 else 0) tty in
    let tty := set_c_cc VTIME 1 tty in
    rc <- tcsetattr fd tty ;;
    if negb (rc =? 0) then ret LGW_USB_ERROR
    else ret LGW_USB_SUCCESS.

(** ** loragw_mcu: the relay and the request buffer *)

(** [mcu_ping(fd, &gw_info)], giving the return code and [gw_info.version] *)
Definition mcu_ping (fd : Z) : M (Z * list Z) := λ w,
  let r := ping_reply E w fd in
  Some (r, log (EvPing fd r.1 r.2) w).

(** [mcu_gpio_write(fd, gpio_port, gpio_id, gpio_value)] *)
Definition mcu_gpio_write (fd gpio_port gpio_id gpio_value : Z) : M Z := λ w,
  let rc := gpio_write_rc E w fd gpio_port gpio_id gpio_value in
  Some (rc, log (EvGpio fd gpio_port gpio_id gpio_value rc) w).

(** [mcu_spi_access(fd, in_out_buf, buf_size, in_buf)], giving the return
    code and the [buf_size] cells of [in_buf] *)
Definition mcu_spi_access (fd : Z) (in_out_buf : list Z) (buf_size : Z)
    : M (Z * list Z) := λ w,
  let r := spi_access_reply E w fd in_out_buf buf_size in
  Some ((r.1, take (Z.to_nat buf_size) r.2),
        log (EvSpi fd in_out_buf buf_size r.1 r.2) w).

(** [buf_req[i] = v]; the array is declared outside the file, its size is
    the length of [buf_req] in the world *)
Definition buf_req_set (i v : Z) : M unit := λ w,
  if decide (0 ≤ i < Z.of_nat (length (buf_req w)))
  then Some (tt, with_buf_req (<[Z.to_nat i := v]> (buf_req w)) w)
  else None.

(** A variable-length array [uint8_t a[n]]: [n] is to be positive. *)
Definition vla (n : Z) : M unit :=
  if decide (0 < n) then ret tt else undef.

(** [strncmp(s1, s2, n)] on character arrays; only the sign of a nonzero
    result is specified. *)
Fixpoint strncmp (s1 s2 : list Z) (n : nat) : option Z :=
  match n with
  | O => Some 0
  | S n' =>
      match s1, s2 with
      | c1 :: t1, c2 :: t2 =>
          if negb (c1 =? c2) then Some (c1 - c2)
          else if c1 =? 0 then Some 0
          else strncmp t1 t2 n'
      | _, _ => None
      end
  end.

(** [memcpy(dst, src + off, n)], [src] an array of bytes *)
Fixpoint memcpy (dst : Z) (src : list Z) (off : nat) (n : nat) : M unit :=
  match n with
  | O => ret tt
  | S n' =>
      match src !! off with
      | Some b => store dst (VByte b) ;; memcpy (dst + 1) src (S off) n'
      | None => undef
      end
  end.

(** ** loragw_usb.c: public functions *)

Definition lgw_usb_open (com_path : string) (com_target_ptr : option Z) : M Z :=
  (* check input variables *)
  match com_target_ptr with
  | None => ret LGW_USB_ERROR
  | Some target_ptr =>
      usb_device <- malloc ;;
      match usb_device with
      | None => ret LGW_USB_ERROR
      | Some usb_device =>
          (* open tty port *)
          portname <- sprintf_s 50 com_path ;;
          fd <- open portname ;;
          if fd <? 0 then
            free usb_device ;;
            ret LGW_USB_ERROR
          else
            x <- set_interface_attribs_linux fd B115200 ;;
            x' <- set_blocking_linux fd true ;;
            let x := Z.lor x x' in
            if negb (x =? 0) then
              free usb_device ;;
              ret LGW_USB_ERROR
            else
              store usb_device (VInt fd) ;;
              store target_ptr (VPtr (Some usb_device)) ;;
              (* Initialize pseudo-random generator for MCU request ID *)
              srand 0 ;;
              (* Check MCU version (ignore first char of the received version) *)
              p <- mcu_ping fd ;;
              let '(rc, version) := p in
              if negb (rc =? 0) then ret LGW_USB_ERROR
              else
                match strncmp (drop 1 version) (mcu_version_string E)
                              (length (mcu_version_string E)) with
                | None => undef
                | Some c =>
                    if negb (c =? 0) then ret (-1)
                    else
                      (* Reset SX1302 *)
                      x <- mcu_gpio_write fd 0 1 1 ;;
                      x' <- mcu_gpio_write fd 0 2 1 ;;
                      let x := Z.lor x x' in
                      x' <- mcu_gpio_write fd 0 2 0 ;;
                      let x := Z.lor x x' in
                      if negb (x =? 0) then
                        free usb_device ;;
                        ret LGW_USB_ERROR
                      else ret LGW_USB_SUCCESS
                end
      end
  end.

Definition lgw_usb_close (com_target : option Z) : M Z :=
  (* check input variables *)
  match com_target with
  | None => ret LGW_USB_ERROR
  | Some target =>
      (* close file & deallocate file descriptor *)
      usb_device <- load_int target ;;
      a <- close usb_device ;;
      free target ;;
      (* determine return code *)
      if a <? 0 then ret LGW_USB_ERROR
      else ret LGW_USB_SUCCESS
  end.

(** Simple write *)
Definition lgw_usb_w (com_target : option Z) (spi_mux_target address data : Z) : M Z :=
  let command_size := 5 in
  (* check input variables *)
  match com_target with
  | None => ret LGW_USB_ERROR
  | Some target =>
      usb_device <- load_int target ;;
      (* prepare frame to be sent *)
      let out_buf :=
        [ 0;
          spi_mux_target;
          Z.lor 0x80 (Z.land (Z.shiftr address 8) 0x7F);
          Z.land (Z.shiftr address 0) 0xFF;
          data ] in
      r <- mcu_spi_access usb_device out_buf command_size ;;
      let '(a, in_buf) := r in
      (* determine return code *)
      if negb (a =? 0) then ret (-1)
      else ret 0
  end.

(** Simple read; [data] is where the register value goes. *)
Definition lgw_usb_r (com_target : option Z) (spi_mux_target address : Z)
    (data : option Z) : M Z :=
  let command_size := 6 in
  (* check input variables *)
  match com_target with
  | None => ret LGW_USB_ERROR
  | Some target =>
      match data with
      | None => ret LGW_USB_ERROR
      | Some data =>
          usb_device <- load_int target ;;
          (* prepare frame to be sent *)
          let out_buf :=
            [ 0;
              spi_mux_target;
              Z.lor 0x00 (Z.land (Z.shiftr address 8) 0x7F);
              Z.land (Z.shiftr address 0) 0xFF;
              0x00;
              0x00 ] in
          r <- mcu_spi_access usb_device out_buf command_size ;;
          let '(a, in_buf) := r in
          (* determine return code *)
          if negb (a =? 0) then ret (-1)
          else
            (* the last byte contains the register value *)
            match in_buf !! Z.to_nat (command_size - 1) with
            | Some b => store data (VByte b) ;; ret 0
            | None => undef
            end
      end
  end.

(** The loop of [lgw_usb_wb], [n] rounds from index [i]:
    [buf_req[i + 4] = data[i]] *)
Fixpoint wb_loop (data : Z) (i : Z) (n : nat) : M unit :=
  match n with
  | O => ret tt
  | S n' =>
      b <- load_byte (data + i) ;;
      buf_req_set (i + 4) b ;;
      wb_loop data (i + 1) n'
  end.

(** Burst (multiple-byte) write *)
Definition lgw_usb_wb (com_target : option Z) (spi_mux_target address : Z)
    (data : option Z) (size : Z) : M Z :=
  let command_size := u16 (size + 4) in
  vla command_size ;;    (* in_buf *)
  (* check input parameters *)
  match com_target with
  | None => ret LGW_USB_ERROR
  | Some target =>
      match data with
      | None => ret LGW_USB_ERROR
      | Some data =>
          usb_device <- load_int target ;;
          (* prepare command byte *)
          buf_req_set 0 0 ;;
          buf_req_set 1 spi_mux_target ;;
          buf_req_set 2 (Z.lor 0x80 (Z.land (Z.shiftr address 8) 0x7F)) ;;
          buf_req_set 3 (Z.land (Z.shiftr address 0) 0xFF) ;;
          wb_loop data 0 (Z.to_nat size) ;;
          req <- gets buf_req ;;
          r <- mcu_spi_access usb_device req command_size ;;
          let '(a, in_buf) := r in
          (* determine return code *)
          if negb (a =? 0) then ret (-1)
          else ret 0
      end
  end.

(** The loop of [lgw_usb_rb], [n] rounds from index [i]:
    [buf_req[i + 5] = 0] *)
Fixpoint rb_loop (i : Z) (n : nat) : M unit :=
  match n with
  | O => ret tt
  | S n' =>
      buf_req_set (i + 5) 0 ;;
      rb_loop (i + 1) n'
  end.

(** Burst (multiple-byte) read *)
Definition lgw_usb_rb (com_target : option Z) (spi_mux_target address : Z)
    (data : option Z) (size : Z) : M Z :=
  let command_size := u16 (size + 5) in
  vla command_size ;;    (* in_buf *)
  (* check input parameters *)
  match com_target with
  | None => ret LGW_USB_ERROR
  | Some target =>
      match data with
      | None => ret LGW_USB_ERROR
      | Some data =>
          usb_device <- load_int target ;;
          (* prepare command byte *)
          buf_req_set 0 0 ;;
          buf_req_set 1 spi_mux_target ;;
          buf_req_set 2 (Z.lor 0x00 (Z.land (Z.shiftr address 8) 0x7F)) ;;
          buf_req_set 3 (Z.land (Z.shiftr address 0) 0xFF) ;;
          buf_req_set 4 0x00 ;;
          rb_loop 0 (Z.to_nat size) ;;
          req <- gets buf_req ;;
          r <- mcu_spi_access usb_device req command_size ;;
          let '(a, in_buf) := r in
          (* determine return code *)
          if negb (a =? 0) then ret (-1)
          else
            memcpy data in_buf 5 (Z.to_nat size) ;;
            ret 0
      end
  end.

End Usb.

(** ** loragw_stts751.c *)

Module Stts751.

(** A [float] that is a small integer: [mantissa * 2 ^ exponent].  The
    conversion of an [int] below [2 ^ 24] in magnitude loses nothing. *)
Record float := Float { mantissa : Z; exponent : Z }.

Definition float_of_int (z : Z) : float := Float z 0.

(** The memory of [float] cells, and the transfers made on the I2C bus
    (device address, register, value). *)
Record state := State {
  floats : gmap Z float;
  i2c_bus : list (Z * Z * Z)
}.

Definition stts751_configure (i2c_fd i2c_addr : Z) (s : state) : Z * state :=
  (LGW_I2C_SUCCESS, s).

(** [temperature] is a pointer: [None] is [NULL], which the function
    dereferences unchecked. *)
Definition stts751_get_temperature (i2c_fd i2c_addr : Z) (temperature : option Z)
    (s : state) : option (Z * state) :=
  match temperature with
  | None => None
  | Some t =>
      Some (LGW_I2C_SUCCESS,
            State (<[t := float_of_int 30]> (floats s)) (i2c_bus s))
  end.

End Stts751.

(** ** The frame layout in the spec's words

    The source builds frames and has no decoder.  These follow the spec:
    the read/write discriminator is bit 7 of the third byte, the address
    is 15 bits, the low 7 bits of byte 2 and all 8 bits of byte 3. *)

Definition decode_is_write (frame : list Z) : option bool :=
  b2 ← frame !! 2%nat; Some (Z.testbit b2 7).

Definition decode_address (frame : list Z) : option Z :=
  b2 ← frame !! 2%nat; b3 ← frame !! 3%nat;
  Some (Z.lor (Z.shiftl (Z.land b2 0x7F) 8) b3).

(** The single-write frame back to (mux, address, data). *)
Definition decode_write (frame : list Z) : option (Z * Z * Z) :=
  match frame with
  | [_; mux; b2; _; data] =>
      if Z.testbit b2 7
      then address ← decode_address frame; Some (mux, address, data)
      else None
  | _ => None
  end.

(** The request frame the relay is given: the first [size] bytes of the
    buffer. *)
Definition request_frame (out : list Z) (size : Z) : list Z :=
  take (Z.to_nat size) out.

(** ** A relay stub and a small world, to run the functions on *)

(** The expected version is "1.0"; the stub's kernel opens every path as
    descriptor 3, a terminal. *)
Definition stub_version : list Z := [49; 46; 48; 0].

Definition relay_stub (ping_rc : Z) (version : list Z) (gpio_rc spi_rc spi_byte close : Z)
    : externals :=
  {| malloc_fails := λ _, false;
     open_fd := λ _ _, 3;
     open_tty := λ _ _, Some termios_zero;
     close_rc := λ _ _, close;
     tcgetattr_rc := λ _ _, 0;
     tcsetattr_rc := λ _ _ _, 0;
     mcu_version_string := stub_version;
     ping_reply := λ _ _, (ping_rc, version);
     gpio_write_rc := λ _ _ _ _ _, gpio_rc;
     spi_access_reply := λ _ _ _ n, (spi_rc, replicate (Z.to_nat n) spi_byte) |}.

(** Nothing is open; cell 100 is the caller's pointer to the handle. *)
Definition world_closed : world :=
  World {[ 100 := VPtr None ]} ∅ ∅ (replicate 16 0) 1 [].

(** Descriptor 3 is open, cell 200 is the handle, cells 300 to 303 are a
    buffer of the caller. *)
Definition world_ready : world :=
  World (<[ 200 := VInt 3 ]> (<[ 300 := VByte 0xAA ]> (<[ 301 := VByte 0xBB ]>
          (<[ 302 := VByte 0xCC ]> {[ 303 := VByte 0xDD ]}))))
        {[ 3 ]} {[ 3 := termios_zero ]} (replicate 16 0) 0 [].

(** The relay's contract in the spec: the reply has the length of the
    request. *)
Definition relay_symmetric (E : externals) : Prop :=
  ∀ w fd out n, length (spi_access_reply E w fd out n).2 = Z.to_nat n.

(** Descriptor 3 is open, cell 200 is the handle, and [buf_req] has room
    for the largest burst. *)
Definition world_large : world :=
  World {[ 200 := VInt 3 ]} {[ 3 ]} {[ 3 := termios_zero ]}
        (replicate (Z.to_nat 65540) 0) 0 [].

(** ** Bursts *)

(** The caller's buffer at [data] holds [bytes]. *)
Definition buffer_at (h : gmap Z val) (data : Z) (bytes : list Z) : Prop :=
  ∀ (i : nat) b, bytes !! i = Some b → h !! (data + Z.of_nat i) = Some (VByte b).

(** [buf_req] as [lgw_usb_wb] leaves it: the four header bytes, then the
    burst, over what was there. *)
Definition wb_request (mux address : Z) (bytes buf : list Z) : list Z :=
  list_inserts 4 bytes
    (<[3%nat := Z.land address 0xFF]>
       (<[2%nat := Z.lor 0x80 (Z.land (Z.shiftr address 8) 0x7F)]>
          (<[1%nat := mux]> (<[0%nat := 0]> buf)))).

(** [buf_req] as [lgw_usb_rb] leaves it: the five header bytes, then
    [size] zeros. *)
Definition rb_request (mux address size : Z) (buf : list Z) : list Z :=
  list_inserts 5 (replicate (Z.to_nat size) 0)
    (<[4%nat := 0]>
       (<[3%nat := Z.land address 0xFF]>
          (<[2%nat := Z.land (Z.shiftr address 8) 0x7F]>
             (<[1%nat := mux]> (<[0%nat := 0]> buf))))).

(** ** Opening *)

(** The handshake of [lgw_usb_open] on the answer of [mcu_ping]: the
    comparison of the version, without its first character, with the
    expected one. *)
Definition version_check (E : externals) (version : list Z) : option Z :=
  strncmp (drop 1 version) (mcu_version_string E) (length (mcu_version_string E)).

(** The handshake fails: the ping failed, or the version differs. *)
Definition handshake_fails (E : externals) (rc : Z) (version : list Z) : Prop :=
  rc ≠ 0 ∨ version_check E version ≠ Some 0.

(** The [version] array the relay fills is long enough, or terminated
    early enough, for the comparison to stay inside it. *)
Definition ping_comparable (E : externals) : Prop :=
  ∀ w fd, is_Some (version_check E (ping_reply E w fd).2).

(** The heap once the handle is published: the handle's cell holds the
    descriptor, the caller's pointer holds the handle. *)
Definition published (h : gmap Z val) (target_ptr usb_device fd : Z) : gmap Z val :=
  <[target_ptr := VPtr (Some usb_device)]> (<[usb_device := VInt fd]> h).

(** The ways [lgw_usb_open] ends from the world [w], with a non-null
    [target_ptr]: its return code, the world it leaves, and the relay
    calls it made. *)
Inductive open_outcome (E : externals) (w : world) (target_ptr : Z)
    : Z → world → list event → Prop :=
  | OpenNoMemory :
      open_outcome E w target_ptr LGW_USB_ERROR w []
  | OpenNoDevice w' :
      heap w' = heap w → fds w' = fds w →
      open_outcome E w target_ptr LGW_USB_ERROR w' []
  | OpenConfigFailed fd w' :
      0 ≤ fd →
      heap w' = heap w → fds w' = {[fd]} ∪ fds w →
      open_outcome E w target_ptr LGW_USB_ERROR w' []
  | OpenPingFailed fd rc version w' :
      0 ≤ fd → rc ≠ 0 →
      heap w' = published (heap w) target_ptr (fresh (dom (heap w))) fd →
      fds w' = {[fd]} ∪ fds w →
      open_outcome E w target_ptr LGW_USB_ERROR w' [EvPing fd rc version]
  | OpenVersionMismatch fd version c w' :
      0 ≤ fd → version_check E version = Some c → c ≠ 0 →
      heap w' = published (heap w) target_ptr (fresh (dom (heap w))) fd →
      fds w' = {[fd]} ∪ fds w →
      open_outcome E w target_ptr (-1) w' [EvPing fd 0 version]
  | OpenResetFailed fd version x1 x2 x3 w' :
      0 ≤ fd → version_check E version = Some 0 →
      Z.lor (Z.lor x1 x2) x3 ≠ 0 →
      heap w' = delete (fresh (dom (heap w)))
                  (published (heap w) target_ptr (fresh (dom (heap w))) fd) →
      fds w' = {[fd]} ∪ fds w →
      open_outcome E w target_ptr LGW_USB_ERROR w'
        [EvPing fd 0 version; EvGpio fd 0 1 1 x1; EvGpio fd 0 2 1 x2; EvGpio fd 0 2 0 x3]
  | OpenReady fd version w' :
      0 ≤ fd → version_check E version = Some 0 →
      heap w' = published (heap w) target_ptr (fresh (dom (heap w))) fd →
      fds w' = {[fd]} ∪ fds w →
      open_outcome E w target_ptr LGW_USB_SUCCESS w'
        [EvPing fd 0 version; EvGpio fd 0 1 1 0; EvGpio fd 0 2 1 0; EvGpio fd 0 2 0 0].

(** The GPIO writes among relay calls, as (port, pin, level). *)
Definition gpio_writes (evs : list event) : list (Z * Z * Z) :=
  omap (λ e, match e with
             | EvGpio _ port pin level _ => Some (port, pin, level)
             | _ => None
             end) evs.

(** The return codes of the GPIO writes among relay calls. *)
Definition gpio_codes (evs : list event) : list Z :=
  omap (λ e, match e with
             | EvGpio _ _ _ _ rc => Some rc
             | _ => None
             end) evs.

(** ** The terminal flags *)

(** The bits [set_interface_attribs_linux] clears in [c_iflag] and in
    [c_oflag], the bits of [c_cflag] it decides, and the bits of
    [c_cflag] that hold the speed. *)
Definition flow_mask : Z :=
  Z.lor IGNBRK (Z.lor (Z.lor (Z.lor IXON IXOFF) IXANY) ICRNL).
Definition cflag_mask : Z :=
  Z.lor CSIZE (Z.lor (Z.lor CLOCAL CREAD) (Z.lor PARENB CSTOPB)).
Definition speed_mask : Z := Z.lor CBAUD CBAUDEX.

(** The attributes [t'] are the attributes [t] put in raw 8N1 mode at
    [speed]: the speed in the speed fields and in the speed bits of
    [c_cflag], 8 data bits, local line, receiver on, no parity, one stop
    bit, the bits of [flow_mask] off in both flag words and the mark
    IBAUD0 off in [c_iflag], no local mode, VMIN 0 and VTIME 50; all
    other bits and control characters as in [t]. *)
Definition raw_8N1 (speed : Z) (t t' : termios) : Prop :=
  c_ispeed t' = speed ∧ c_ospeed t' = speed ∧
  Z.land (c_cflag t') speed_mask = speed ∧
  Z.land (c_cflag t') CSIZE = CS8 ∧
  Z.land (c_cflag t') (Z.lor CLOCAL CREAD) = Z.lor CLOCAL CREAD ∧
  Z.land (c_cflag t') (Z.lor PARENB CSTOPB) = 0 ∧
  Z.land (c_cflag t') (Z.lnot (Z.lor cflag_mask speed_mask))
    = Z.land (c_cflag t) (Z.lnot (Z.lor cflag_mask speed_mask)) ∧
  Z.land (c_iflag t') (Z.lor flow_mask IBAUD0) = 0 ∧
  Z.land (c_iflag t') (Z.lnot (Z.lor flow_mask IBAUD0))
    = Z.land (c_iflag t) (Z.lnot (Z.lor flow_mask IBAUD0)) ∧
  Z.land (c_oflag t') flow_mask = 0 ∧
  Z.land (c_oflag t') (Z.lnot flow_mask) = Z.land (c_oflag t) (Z.lnot flow_mask) ∧
  c_lflag t' = 0 ∧
  c_cc t' = <[VTIME := 50]> (<[VMIN := 0]> (c_cc t)).

(** A kernel whose [tcsetattr] fails: the port opens and cannot be
    configured. *)
Definition broken_port_stub : externals :=
  {| malloc_fails := λ _, false;
     open_fd := λ _ _, 3;
     open_tty := λ _ _, Some termios_zero;
     close_rc := λ _ _, 0;
     tcgetattr_rc := λ _ _, 0;
     tcsetattr_rc := λ _ _ _, -1;
     mcu_version_string := stub_version;
     ping_reply := λ _ _, (0, [82; 49; 46; 48; 0]);
     gpio_write_rc := λ _ _ _ _ _, 0;
     spi_access_reply := λ _ _ _ n, (0, replicate (Z.to_nat n) 0) |}.

(** * Properties *)

(** ** The address bits *)

Lemma testbit_0x7F n : 0 ≤ n → Z.testbit 0x7F n = bool_decide (n < 7).
Proof.
  intros Hn. change 0x7F with (Z.ones 7). case_bool_decide.
  - apply Z.ones_spec_low. lia.
  - apply Z.ones_spec_high. lia.
Qed.

Lemma testbit_0xFF n : 0 ≤ n → Z.testbit 0xFF n = bool_decide (n < 8).
Proof.
  intros Hn. change 0xFF with (Z.ones 8). case_bool_decide.
  - apply Z.ones_spec_low. lia.
  - apply Z.ones_spec_high. lia.
Qed.

(** Bit 7 of the header byte of a write is set, of a read it is clear. *)
Lemma header_write_bit7 a :
  Z.testbit (Z.lor 0x80 (Z.land (Z.shiftr a 8) 0x7F)) 7 = true.
Proof. rewrite Z.lor_spec. reflexivity. Qed.

Lemma header_read_bit7 a :
  Z.testbit (Z.lor 0x00 (Z.land (Z.shiftr a 8) 0x7F)) 7 = false.
Proof. rewrite Z.lor_0_l, Z.land_spec, andb_false_r. reflexivity. Qed.

(** The low seven bits of the header byte, whatever its bit 7. *)
Lemma header_low7 h a :
  Z.land h 0x7F = 0 →
  Z.land (Z.lor h (Z.land (Z.shiftr a 8) 0x7F)) 0x7F = Z.land (Z.shiftr a 8) 0x7F.
Proof.
  intros Hh. rewrite Z.land_lor_distr_l, Hh, Z.lor_0_l.
  rewrite <- Z.land_assoc. reflexivity.
Qed.

(** Bytes 2 and 3 put together again are the low 15 bits of the address. *)
Lemma address_bits a :
  Z.lor (Z.shiftl (Z.land (Z.shiftr a 8) 0x7F) 8) (Z.land a 0xFF) = Z.land a 0x7FFF.
Proof.
  apply Z.bits_inj'. intros n Hn.
  rewrite Z.lor_spec, !Z.land_spec, testbit_0xFF by done.
  change 0x7FFF with (Z.ones 15).
  destruct (decide (n < 8)) as [Hlt|Hge].
  - rewrite Z.shiftl_spec_low by done.
    rewrite Z.ones_spec_low by lia. rewrite bool_decide_eq_true_2 by done. done.
  - rewrite Z.shiftl_spec by done. rewrite Z.land_spec, Z.shiftr_spec by lia.
    rewrite testbit_0x7F by lia. replace (n - 8 + 8) with n by lia.
    rewrite (bool_decide_eq_false_2 (n < 8)) by done. rewrite andb_false_r, orb_false_r.
    f_equal. case_bool_decide.
    + symmetry. apply Z.ones_spec_low. lia.
    + symmetry. apply Z.ones_spec_high. lia.
Qed.

Lemma land_0x7FFF a : 0 ≤ a → (Z.land a 0x7FFF = a ↔ a < 32768).
Proof.
  intros Ha. change 0x7FFF with (Z.ones 15). rewrite Z.land_ones by done.
  change (2 ^ 15) with 32768. split.
  - intros H. rewrite <- H. apply Z.mod_pos_bound. done.
  - intros H. apply Z.mod_small. lia.
Qed.

(** ** Single write and single read *)

(** What a single write does on a valid handle. *)
Lemma lgw_usb_w_run E w target fd mux address data :
  heap w !! target = Some (VInt fd) →
  let out_buf := [0; mux; Z.lor 0x80 (Z.land (Z.shiftr address 8) 0x7F);
                  Z.land address 0xFF; data] in
  let rep := spi_access_reply E w fd out_buf 5 in
  lgw_usb_w E (Some target) mux address data w =
    Some (if rep.1 =? 0 then 0 else -1, log (EvSpi fd out_buf 5 rep.1 rep.2) w).
Proof.
  intros Hh. unfold lgw_usb_w, bind, load_int, mcu_spi_access, ret.
  rewrite Hh, Z.shiftr_0_r. cbn.
  destruct (_ =? 0); reflexivity.
Qed.

(** What a single read does on a valid handle. *)
Lemma lgw_usb_r_run E w target fd mux address dst :
  heap w !! target = Some (VInt fd) →
  let out_buf := [0; mux; Z.land (Z.shiftr address 8) 0x7F;
                  Z.land address 0xFF; 0; 0] in
  let rep := spi_access_reply E w fd out_buf 6 in
  let w1 := log (EvSpi fd out_buf 6 rep.1 rep.2) w in
  lgw_usb_r E (Some target) mux address (Some dst) w =
    if rep.1 =? 0 then
      match rep.2 !! 5%nat with
      | Some b => (store dst (VByte b) ;; ret 0) w1
      | None => None
      end
    else Some (-1, w1).
Proof.
  intros Hh. unfold lgw_usb_r, bind at 1 2, load_int, mcu_spi_access, ret.
  rewrite Hh, Z.shiftr_0_r, Z.lor_0_l. cbn.
  destruct (_ =? 0); cbn; [|reflexivity].
  change (Pos.to_nat 6) with 6%nat. change (Pos.to_nat 5) with 5%nat.
  rewrite lookup_take_lt by lia.
  change (Z.to_nat (6 - 1)) with 5%nat.
  destruct (_ !! 5%nat); reflexivity.
Qed.

(** C5. On a valid handle the single write hands the relay exactly the
    five bytes [0, mux, 0x80 | ((address >> 8) & 0x7F), address & 0xFF,
    data]; decoding that frame gives (mux, address, data) back if and only
    if the address fits in 15 bits. *)
Theorem single_write_frame E w target fd mux address data :
  heap w !! target = Some (VInt fd) →
  0 ≤ address < 65536 →
  ∃ r w' rc reply frame,
    lgw_usb_w E (Some target) mux address data w = Some (r, w') ∧
    trace w' = trace w ++ [EvSpi fd frame 5 rc reply] ∧
    frame = [0; mux; Z.lor 0x80 (Z.land (Z.shiftr address 8) 0x7F);
             Z.land address 0xFF; data] ∧
    (decode_write frame = Some (mux, address, data) ↔ address < 32768).
Proof.
  intros Hh Ha. eexists _, _, _, _, _.
  split; [apply (lgw_usb_w_run E _ _ _ _ _ _ Hh)|].
  split; [reflexivity|]. split; [reflexivity|].
  unfold decode_write, decode_address. rewrite header_write_bit7. cbn.
  rewrite header_low7 by reflexivity. rewrite address_bits.
  rewrite <- land_0x7FFF by lia. split; [congruence|].
  intros ->. reflexivity.
Qed.

Lemma single_write_frame_witness :
  ∃ r w' rc reply frame,
    lgw_usb_w (relay_stub 0 [] 0 0 0 0) (Some 200) 1 0x1234 0x56 world_ready
      = Some (r, w') ∧
    trace w' = trace world_ready ++ [EvSpi 3 frame 5 rc reply] ∧
    frame = [0; 1; Z.lor 0x80 (Z.land (Z.shiftr 0x1234 8) 0x7F);
             Z.land 0x1234 0xFF; 0x56] ∧
    (decode_write frame = Some (1, 0x1234, 0x56) ↔ 0x1234 < 32768).
Proof.
  apply (single_write_frame (relay_stub 0 [] 0 0 0 0) world_ready 200 3 1 0x1234 0x56).
  - reflexivity.
  - lia.
Defined.

(** C4. For a 15-bit address, bit 7 of frame byte 2 is 1 in the frame of a
    single write and 0 in the frame of a single read, and the low 7 bits
    of byte 2 with the 8 bits of byte 3 are the address again. *)
Theorem address_encoding E w target fd mux address data dst :
  heap w !! target = Some (VInt fd) →
  is_Some (heap w !! dst) →
  relay_symmetric E →
  0 ≤ address < 32768 →
  ∃ r1 w1 rc1 reply1 wframe r2 w2 rc2 reply2 rframe,
    lgw_usb_w E (Some target) mux address data w = Some (r1, w1) ∧
    trace w1 = trace w ++ [EvSpi fd wframe 5 rc1 reply1] ∧
    lgw_usb_r E (Some target) mux address (Some dst) w = Some (r2, w2) ∧
    trace w2 = trace w ++ [EvSpi fd rframe 6 rc2 reply2] ∧
    decode_is_write wframe = Some true ∧
    decode_is_write rframe = Some false ∧
    decode_address wframe = Some address ∧
    decode_address rframe = Some address.
Proof.
  intros Hh [v Hdst] Hsym Ha.
  pose proof (lgw_usb_r_run E w target fd mux address dst Hh) as Hr.
  cbn zeta in Hr.
  set (rframe := [0; mux; Z.land (Z.shiftr address 8) 0x7F; Z.land address 0xFF; 0; 0]) in *.
  assert (∃ r2 w2, lgw_usb_r E (Some target) mux address (Some dst) w = Some (r2, w2) ∧
            trace w2 = trace w ++ [EvSpi fd rframe 6 (spi_access_reply E w fd rframe 6).1
                                     (spi_access_reply E w fd rframe 6).2])
    as (r2 & w2 & Hrun & Htr).
  { rewrite Hr. destruct (_ =? 0); [|eauto].
    destruct (lookup_lt_is_Some_2 (spi_access_reply E w fd rframe 6).2 5) as [b Hb].
    { rewrite Hsym. change (Z.to_nat 6) with 6%nat. lia. }
    rewrite Hb. unfold bind, store, ret. cbn. rewrite Hdst. eauto. }
  eexists _, _, _, _, _, r2, w2, _, _, rframe.
  split; [apply (lgw_usb_w_run E _ _ _ _ _ _ Hh)|].
  split; [reflexivity|]. split; [exact Hrun|]. split; [exact Htr|].
  assert (Z.land address 0x7FFF = address) as Hlow by (apply land_0x7FFF; lia).
  unfold decode_is_write, decode_address, rframe.
  cbn -[Z.testbit Z.lor Z.land Z.shiftl Z.shiftr].
  rewrite header_write_bit7, (header_low7 0x80) by reflexivity.
  rewrite address_bits, Hlow.
  pose proof (header_read_bit7 address) as Hbit. rewrite Z.lor_0_l in Hbit.
  rewrite Hbit.
  pose proof (header_low7 0 address eq_refl) as Hl7. rewrite Z.lor_0_l in Hl7.
  rewrite Hl7, address_bits, Hlow. done.
Qed.

Lemma relay_stub_symmetric ping_rc version gpio_rc spi_rc spi_byte close :
  relay_symmetric (relay_stub ping_rc version gpio_rc spi_rc spi_byte close).
Proof. intros w fd out n. cbn. apply length_replicate. Qed.

Lemma address_encoding_witness :
  ∃ r1 w1 rc1 reply1 wframe r2 w2 rc2 reply2 rframe,
    lgw_usb_w (relay_stub 0 [] 0 0 0 0) (Some 200) 1 0x1234 0x56 world_ready
      = Some (r1, w1) ∧
    trace w1 = trace world_ready ++ [EvSpi 3 wframe 5 rc1 reply1] ∧
    lgw_usb_r (relay_stub 0 [] 0 0 0 0) (Some 200) 1 0x1234 (Some 300) world_ready
      = Some (r2, w2) ∧
    trace w2 = trace world_ready ++ [EvSpi 3 rframe 6 rc2 reply2] ∧
    decode_is_write wframe = Some true ∧
    decode_is_write rframe = Some false ∧
    decode_address wframe = Some 0x1234 ∧
    decode_address rframe = Some 0x1234.
Proof.
  apply (address_encoding (relay_stub 0 [] 0 0 0 0) world_ready 200 3 1 0x1234 0x56 300).
  - reflexivity.
  - exists (VByte 0xAA). reflexivity.
  - apply relay_stub_symmetric.
  - lia.
Defined.

(** C2, as stated, fails: the write of 0x7F to register 0x0042 on mux 0
    does not hand the relay the frame [0, 0, 0xC0, 0x42, 0x7F]. *)
Lemma write_0x42_frame_is_not_0xC0 :
  ¬ ∃ r w' rc reply,
      lgw_usb_w (relay_stub 0 [] 0 0 0x7F 0) (Some 200) 0 0x0042 0x7F world_ready
        = Some (r, w') ∧
      trace w' = trace world_ready ++ [EvSpi 3 [0; 0; 0xC0; 0x42; 0x7F] 5 rc reply].
Proof.
  intros (r & w' & rc & reply & Hrun & Htr).
  rewrite (lgw_usb_w_run _ world_ready 200 3) in Hrun by reflexivity.
  injection Hrun as _ <-. cbn in Htr. discriminate Htr.
Qed.

(** C2, amended. For mux 0, address 0x0042 and data 0x7F the single write
    hands the relay the frame [0, 0, 0x80, 0x42, 0x7F]; the single read of
    0x0042 that follows hands it [0, 0, 0x00, 0x42, 0, 0]; and when the
    relay succeeds with 0x7F in the last byte of its reply, the read
    returns 0 and the caller's byte is 0x7F. *)
Theorem write_then_read_0x42 E w target fd dst reply :
  heap w !! target = Some (VInt fd) →
  is_Some (heap w !! dst) →
  (∀ w1, spi_access_reply E w1 fd [0; 0; 0x00; 0x42; 0; 0] 6 = (0, reply)) →
  reply !! 5%nat = Some 0x7F →
  ∃ r1 w1 rc1 reply1 w2,
    lgw_usb_w E (Some target) 0 0x0042 0x7F w = Some (r1, w1) ∧
    trace w1 = trace w ++ [EvSpi fd [0; 0; 0x80; 0x42; 0x7F] 5 rc1 reply1] ∧
    lgw_usb_r E (Some target) 0 0x0042 (Some dst) w1 = Some (0, w2) ∧
    trace w2 = trace w1 ++ [EvSpi fd [0; 0; 0x00; 0x42; 0; 0] 6 0 reply] ∧
    heap w2 !! dst = Some (VByte 0x7F).
Proof.
  intros Hh [v Hdst] Hrelay Hlast.
  eexists _, _, _, _, _.
  split; [apply (lgw_usb_w_run E _ _ _ _ _ _ Hh)|].
  split; [reflexivity|].
  rewrite (lgw_usb_r_run E _ target fd) by exact Hh.
  cbn -[spi_access_reply]. rewrite Hrelay. cbn. rewrite Hlast.
  unfold bind, store, ret. cbn. rewrite Hdst. cbn.
  split; [reflexivity|]. split; [reflexivity|].
  apply lookup_insert_eq.
Qed.

Lemma write_then_read_0x42_witness :
  ∃ r1 w1 rc1 reply1 w2,
    lgw_usb_w (relay_stub 0 [] 0 0 0x7F 0) (Some 200) 0 0x0042 0x7F world_ready
      = Some (r1, w1) ∧
    trace w1 = trace world_ready ++ [EvSpi 3 [0; 0; 0x80; 0x42; 0x7F] 5 rc1 reply1] ∧
    lgw_usb_r (relay_stub 0 [] 0 0 0x7F 0) (Some 200) 0 0x0042 (Some 300) w1
      = Some (0, w2) ∧
    trace w2 = trace w1 ++ [EvSpi 3 [0; 0; 0x00; 0x42; 0; 0] 6 0 (replicate 6 0x7F)] ∧
    heap w2 !! 300 = Some (VByte 0x7F).
Proof.
  apply (write_then_read_0x42 (relay_stub 0 [] 0 0 0x7F 0) world_ready 200 3 300
           (replicate 6 0x7F)).
  - reflexivity.
  - exists (VByte 0xAA). reflexivity.
  - intros w1. reflexivity.
  - reflexivity.
Defined.

(** ** The temperature sensor stub *)

(** C9. Whatever the descriptor and the address, [stts751_get_temperature]
    makes no transfer on the bus, stores the one constant 30 where
    [temperature] points, touches no other cell, and returns success;
    [stts751_configure] changes nothing and returns success. *)
Theorem stts751_is_a_constant_stub i2c_fd i2c_addr t s :
  ∃ s', Stts751.stts751_get_temperature i2c_fd i2c_addr (Some t) s
          = Some (LGW_I2C_SUCCESS, s') ∧
        Stts751.i2c_bus s' = Stts751.i2c_bus s ∧
        Stts751.floats s' !! t = Some (Stts751.float_of_int 30) ∧
        (∀ t', t' ≠ t → Stts751.floats s' !! t' = Stts751.floats s !! t') ∧
        Stts751.stts751_configure i2c_fd i2c_addr s = (LGW_I2C_SUCCESS, s).
Proof.
  eexists. split; [reflexivity|]. cbn. split; [reflexivity|].
  split; [apply lookup_insert_eq|]. split; [|reflexivity].
  intros t' Hne. apply lookup_insert_ne. congruence.
Qed.

(** ** Closing *)

(** What closing does on a valid handle: the handle's cell is freed
    whatever [close] answered. *)
Lemma lgw_usb_close_run E w target fd :
  heap w !! target = Some (VInt fd) →
  ∃ w', lgw_usb_close E (Some target) w
          = Some (if close_rc E w fd <? 0 then LGW_USB_ERROR else LGW_USB_SUCCESS, w') ∧
        heap w' = delete target (heap w) ∧
        trace w' = trace w.
Proof.
  intros Hh. unfold lgw_usb_close, bind, load_int, close, free, ret.
  rewrite Hh. cbn. rewrite Hh. destruct (close_rc E w fd <? 0); eauto.
Qed.

(** C7, as stated, fails: when the kernel's [close] fails, closing a valid
    handle does not report success. *)
Lemma close_failure_is_reported :
  ¬ ∃ w', lgw_usb_close (relay_stub 0 [] 0 0 0 (-1)) (Some 200) world_ready
            = Some (LGW_USB_SUCCESS, w').
Proof.
  intros [w' Hrun].
  destruct (lgw_usb_close_run (relay_stub 0 [] 0 0 0 (-1)) world_ready 200 3 eq_refl)
    as (w1 & Hrun1 & _).
  rewrite Hrun1 in Hrun. discriminate Hrun.
Qed.

(** C7, amended. For every valid handle [lgw_usb_close] frees the handle's
    cell (and no other) whether or not the kernel's [close] succeeds; it
    returns [LGW_USB_ERROR] when [close] answered a negative number and
    [LGW_USB_SUCCESS] otherwise. *)
Theorem close_releases_handle E w target fd :
  heap w !! target = Some (VInt fd) →
  ∃ r w', lgw_usb_close E (Some target) w = Some (r, w') ∧
          heap w' !! target = None ∧
          (∀ l, l ≠ target → heap w' !! l = heap w !! l) ∧
          (close_rc E w fd < 0 → r = LGW_USB_ERROR) ∧
          (0 ≤ close_rc E w fd → r = LGW_USB_SUCCESS).
Proof.
  intros Hh. destruct (lgw_usb_close_run E w target fd Hh) as (w' & Hrun & Hheap & _).
  eexists _, w'. split; [exact Hrun|]. rewrite Hheap.
  split; [apply lookup_delete_eq|].
  split; [intros l Hl; apply lookup_delete_ne; congruence|].
  destruct (Z.ltb_spec (close_rc E w fd) 0); split; intros; (reflexivity || lia).
Qed.

Lemma close_releases_handle_witness :
  ∃ r w', lgw_usb_close (relay_stub 0 [] 0 0 0 (-1)) (Some 200) world_ready
            = Some (r, w') ∧
          heap w' !! 200 = None ∧
          (∀ l, l ≠ 200 → heap w' !! l = heap world_ready !! l) ∧
          (-1 < 0 → r = LGW_USB_ERROR) ∧
          (0 ≤ -1 → r = LGW_USB_SUCCESS).
Proof.
  apply (close_releases_handle (relay_stub 0 [] 0 0 0 (-1)) world_ready 200 3).
  reflexivity.
Defined.

(** ** The blocking mode *)



(** ** Burst write and burst read *)

Lemma with_buf_req_id w : with_buf_req (buf_req w) w = w.
Proof. destruct w; reflexivity. Qed.

Lemma trace_log e w : trace (log e w) = trace w ++ [e].
Proof. reflexivity. Qed.

Lemma trace_with_buf_req b w : trace (with_buf_req b w) = trace w.
Proof. reflexivity. Qed.

Lemma with_buf_req_twice b b' w : with_buf_req b (with_buf_req b' w) = with_buf_req b w.
Proof. reflexivity. Qed.

Lemma buf_req_set_run i v w :
  0 ≤ i < Z.of_nat (length (buf_req w)) →
  buf_req_set i v w = Some (tt, with_buf_req (<[Z.to_nat i := v]> (buf_req w)) w).
Proof. intros Hi. unfold buf_req_set. rewrite decide_True by done. reflexivity. Qed.

(** The loop of the burst read writes [n] zeros from index [i + 5]. *)
Lemma rb_loop_run n : ∀ i w,
  0 ≤ i →
  i + 5 + Z.of_nat n ≤ Z.of_nat (length (buf_req w)) →
  rb_loop i n w
    = Some (tt, with_buf_req (list_inserts (Z.to_nat (i + 5)) (replicate n 0) (buf_req w)) w).
Proof.
  induction n as [|n IH]; intros i w Hi Hlen; cbn [rb_loop replicate list_inserts].
  - unfold ret. rewrite with_buf_req_id. reflexivity.
  - unfold bind. rewrite buf_req_set_run by lia.
    rewrite IH by (cbn [buf_req with_buf_req]; rewrite ?length_insert; lia).
    cbn [buf_req with_buf_req]. unfold with_buf_req at 1. cbn.
    replace (Z.to_nat (i + 1 + 5)) with (S (Z.to_nat (i + 5))) by lia.
    rewrite <- list_insert_inserts_lt by lia. reflexivity.
Qed.

(** The loop of the burst write copies the caller's bytes from index
    [i + 4]. *)
Lemma wb_loop_run data bytes : ∀ i w,
  0 ≤ i →
  (∀ (j : nat) b, bytes !! j = Some b →
     heap w !! (data + (i + Z.of_nat j)) = Some (VByte b)) →
  i + 4 + Z.of_nat (length bytes) ≤ Z.of_nat (length (buf_req w)) →
  wb_loop data i (length bytes) w
    = Some (tt, with_buf_req (list_inserts (Z.to_nat (i + 4)) bytes (buf_req w)) w).
Proof.
  induction bytes as [|b bytes IH]; intros i w Hi Hbuf Hlen;
    cbn [length wb_loop list_inserts].
  - unfold ret. rewrite with_buf_req_id. reflexivity.
  - cbn [length] in Hlen. unfold bind, load_byte.
    specialize (Hbuf 0%nat b eq_refl) as Hb. rewrite Z.add_0_r in Hb. rewrite Hb.
    rewrite buf_req_set_run by lia.
    rewrite IH.
    + cbn [buf_req with_buf_req]. unfold with_buf_req at 1. cbn.
      replace (Z.to_nat (i + 1 + 4)) with (S (Z.to_nat (i + 4))) by lia.
      rewrite <- list_insert_inserts_lt by lia. reflexivity.
    + lia.
    + intros j b' Hj. cbn [heap with_buf_req].
      replace (i + 1 + Z.of_nat j) with (i + Z.of_nat (S j)) by lia.
      apply Hbuf. exact Hj.
    + cbn [buf_req with_buf_req]. rewrite length_insert. lia.
Qed.

(** The first [N + 4] bytes of the burst-write buffer. *)
Lemma wb_request_frame mux address bytes buf :
  (4 + length bytes ≤ length buf)%nat →
  request_frame (wb_request mux address bytes buf) (Z.of_nat (length bytes) + 4)
    = [0; mux; Z.lor 0x80 (Z.land (Z.shiftr address 8) 0x7F); Z.land address 0xFF]
      ++ bytes.
Proof.
  intros Hlen. unfold request_frame, wb_request.
  destruct buf as [|a0 [|a1 [|a2 [|a3 rest]]]]; cbn [length] in Hlen; try lia.
  cbn [list_insert insert]. rewrite !list_inserts_cons.
  replace (Z.to_nat (Z.of_nat (length bytes) + 4)) with (4 + length bytes)%nat by lia.
  cbn [take Nat.add app]. do 4 f_equal.
  rewrite <- (take_drop (length bytes) rest).
  rewrite list_inserts_0_r by (rewrite length_take; lia).
  apply take_app_length.
Qed.

(** The first [N + 5] bytes of the burst-read buffer. *)
Lemma rb_request_frame mux address size buf :
  0 ≤ size →
  size + 5 ≤ Z.of_nat (length buf) →
  request_frame (rb_request mux address size buf) (size + 5)
    = [0; mux; Z.land (Z.shiftr address 8) 0x7F; Z.land address 0xFF; 0]
      ++ replicate (Z.to_nat size) 0.
Proof.
  intros Hsize Hlen. unfold request_frame, rb_request.
  destruct buf as [|a0 [|a1 [|a2 [|a3 [|a4 rest]]]]]; cbn [length] in Hlen; try lia.
  cbn [list_insert insert]. rewrite !list_inserts_cons.
  replace (Z.to_nat (size + 5)) with (5 + Z.to_nat size)%nat by lia.
  cbn [take Nat.add app]. do 5 f_equal.
  rewrite <- (take_drop (Z.to_nat size) rest).
  rewrite list_inserts_0_r by (rewrite length_take, length_replicate; lia).
  rewrite <- (length_replicate (Z.to_nat size) 0) at 1.
  apply take_app_length.
Qed.

(** What a burst write does on a valid handle, for a burst the caller's
    buffer holds and [buf_req] has room for. *)
Lemma lgw_usb_wb_run E w target fd mux address data bytes :
  heap w !! target = Some (VInt fd) →
  buffer_at (heap w) data bytes →
  let size := Z.of_nat (length bytes) in
  size + 4 ≤ Z.of_nat (length (buf_req w)) →
  0 < u16 (size + 4) →
  let req := wb_request mux address bytes (buf_req w) in
  let w1 := with_buf_req req w in
  let rep := spi_access_reply E w1 fd req (u16 (size + 4)) in
  lgw_usb_wb E (Some target) mux address (Some data) size w
    = Some (if rep.1 =? 0 then 0 else -1,
            log (EvSpi fd req (u16 (size + 4)) rep.1 rep.2) w1).
Proof.
  intros Hh Hbuf size Hlen Hvla req w1 rep.
  unfold lgw_usb_wb, vla. rewrite decide_True by exact Hvla.
  unfold bind at 1, ret at 1. unfold bind at 1, load_int. rewrite Hh.
  unfold bind at 1. rewrite buf_req_set_run by lia.
  unfold bind at 1. rewrite buf_req_set_run
    by (cbn [buf_req with_buf_req]; rewrite ?length_insert; lia).
  unfold bind at 1. rewrite buf_req_set_run
    by (cbn [buf_req with_buf_req]; rewrite ?length_insert; lia).
  unfold bind at 1. rewrite buf_req_set_run
    by (cbn [buf_req with_buf_req]; rewrite ?length_insert; lia).
  unfold bind at 1. unfold size. rewrite Nat2Z.id.
  rewrite wb_loop_run; cbn [buf_req with_buf_req heap].
  - rewrite Z.shiftr_0_r, !with_buf_req_twice.
    unfold bind, gets, mcu_spi_access, ret. cbn [buf_req with_buf_req fst snd].
    change (list_inserts _ bytes _) with req.
    change (with_buf_req req w) with w1. fold size. fold rep.
    destruct (rep.1 =? 0); reflexivity.
  - lia.
  - intros j b Hj. rewrite Z.add_0_l. apply Hbuf. exact Hj.
  - rewrite !length_insert. lia.
Qed.

(** [memcpy] into allocated cells, from an array that is long enough, is
    defined, and touches the heap only. *)
Lemma memcpy_defined src n : ∀ dst off w,
  (∀ i, 0 ≤ i < Z.of_nat n → is_Some (heap w !! (dst + i))) →
  (off + n ≤ length src)%nat →
  ∃ w', memcpy dst src off n w = Some (tt, w') ∧
        trace w' = trace w ∧ buf_req w' = buf_req w ∧ fds w' = fds w.
Proof.
  induction n as [|n IH]; intros dst off w Hdst Hsrc; cbn [memcpy].
  - eexists. split; [reflexivity|]. done.
  - destruct (lookup_lt_is_Some_2 src off) as [b Hb]; [lia|]. rewrite Hb.
    unfold bind, store. destruct (Hdst 0) as [v Hv]; [lia|].
    rewrite Z.add_0_r in Hv. rewrite Hv.
    destruct (IH (dst + 1) (S off) (with_heap (<[dst := VByte b]> (heap w)) w))
      as (w' & Hrun & Htr & Hreq & Hfds).
    + intros i Hi. cbn [heap with_heap]. apply lookup_insert_is_Some'. right.
      replace (dst + 1 + i) with (dst + (1 + i)) by lia. apply Hdst. lia.
    + lia.
    + rewrite Hrun. eexists. split; [reflexivity|]. done.
Qed.

(** What a burst read does on a valid handle when [buf_req] has room. *)
Lemma lgw_usb_rb_run E w target fd mux address dst size :
  heap w !! target = Some (VInt fd) →
  0 ≤ size →
  size + 5 ≤ Z.of_nat (length (buf_req w)) →
  0 < u16 (size + 5) →
  let req := rb_request mux address size (buf_req w) in
  let w1 := with_buf_req req w in
  let rep := spi_access_reply E w1 fd req (u16 (size + 5)) in
  let w2 := log (EvSpi fd req (u16 (size + 5)) rep.1 rep.2) w1 in
  lgw_usb_rb E (Some target) mux address (Some dst) size w
    = if rep.1 =? 0
      then (memcpy dst (take (Z.to_nat (u16 (size + 5))) rep.2) 5 (Z.to_nat size) ;;
            ret 0) w2
      else Some (-1, w2).
Proof.
  intros Hh Hsize Hlen Hvla req w1 rep w2.
  unfold lgw_usb_rb, vla. rewrite decide_True by exact Hvla.
  unfold bind at 1, ret at 1. unfold bind at 1, load_int. rewrite Hh.
  unfold bind at 1. rewrite buf_req_set_run by lia.
  do 4 (unfold bind at 1; rewrite buf_req_set_run
          by (cbn [buf_req with_buf_req]; rewrite ?length_insert; lia)).
  unfold bind at 1.
  rewrite rb_loop_run; cbn [buf_req with_buf_req heap].
  - rewrite Z.shiftr_0_r, Z.lor_0_l, !with_buf_req_twice.
    unfold bind at 1, gets. unfold bind at 1, mcu_spi_access.
    cbn [buf_req with_buf_req fst snd].
    change (list_inserts _ (replicate _ 0) _) with req.
    change (with_buf_req req w) with w1. fold rep. fold w2.
    destruct (rep.1 =? 0); reflexivity.
  - lia.
  - rewrite !length_insert. lia.
Qed.

Lemma u16_small z : 0 ≤ z < 65536 → u16 z = z.
Proof. intros Hz. unfold u16. apply Z.mod_small. exact Hz. Qed.

(** C3, as stated, fails: for a burst of 65535 bytes the burst read hands
    the relay the length 4, which is 65540 modulo 2 ^ 16. *)
Lemma burst_read_length_wraps :
  ∃ w' req reply,
    lgw_usb_rb (relay_stub 0 [] 0 1 0 0) (Some 200) 0 0 (Some 300) 65535 world_large
      = Some (-1, w') ∧
    trace w' = trace world_large ++ [EvSpi 3 req 4 1 reply] ∧
    4 ≠ 65535 + 5.
Proof.
  pose proof (lgw_usb_rb_run (relay_stub 0 [] 0 1 0 0) world_large 200 3 0 0 300 65535)
    as Hrun.
  cbn zeta in Hrun.
  assert (65535 + 5 ≤ Z.of_nat (length (buf_req world_large))) as Hroom.
  { unfold world_large. cbn [buf_req]. rewrite length_replicate. lia. }
  specialize (Hrun eq_refl ltac:(lia) Hroom eq_refl). clear Hroom.
  change (u16 (65535 + 5)) with 4 in Hrun.
  cbn [spi_access_reply relay_stub fst snd Z.eqb] in Hrun.
  eexists _, _, _. split; [exact Hrun|]. clear Hrun.
  split; [rewrite trace_log, trace_with_buf_req; reflexivity|lia].
Qed.

(** C3, amended. On a valid handle, for a burst of N bytes that [buf_req]
    has room for: when N + 4 is below 2 ^ 16 the burst write hands the
    relay the length N + 4, and its frame is the header and the N bytes;
    when N + 5 is below 2 ^ 16 the burst read hands the relay the length
    N + 5, and its frame is the header and N zeros. *)
Theorem burst_frame_lengths E w target fd mux address data bytes :
  heap w !! target = Some (VInt fd) →
  buffer_at (heap w) data bytes →
  relay_symmetric E →
  let N := Z.of_nat (length bytes) in
  (N + 4 ≤ Z.of_nat (length (buf_req w)) → N + 4 < 65536 →
   ∃ r w' req rc reply,
     lgw_usb_wb E (Some target) mux address (Some data) N w = Some (r, w') ∧
     trace w' = trace w ++ [EvSpi fd req (N + 4) rc reply] ∧
     request_frame req (N + 4)
       = [0; mux; Z.lor 0x80 (Z.land (Z.shiftr address 8) 0x7F); Z.land address 0xFF]
         ++ bytes ∧
     Z.of_nat (length (request_frame req (N + 4))) = N + 4)
  ∧
  (N + 5 ≤ Z.of_nat (length (buf_req w)) → N + 5 < 65536 →
   ∃ r w' req rc reply,
     lgw_usb_rb E (Some target) mux address (Some data) N w = Some (r, w') ∧
     trace w' = trace w ++ [EvSpi fd req (N + 5) rc reply] ∧
     request_frame req (N + 5)
       = [0; mux; Z.land (Z.shiftr address 8) 0x7F; Z.land address 0xFF; 0]
         ++ replicate (length bytes) 0 ∧
     Z.of_nat (length (request_frame req (N + 5))) = N + 5).
Proof.
  intros Hh Hbuf Hsym N. split; intros Hroom Hfit.
  - pose proof (lgw_usb_wb_run E w target fd mux address data bytes Hh Hbuf) as Hrun.
    cbn zeta in Hrun. fold N in Hrun. rewrite (u16_small (N + 4)) in Hrun by lia.
    eexists _, _, _, _, _. split; [apply Hrun; lia|].
    split; [reflexivity|].
    assert (request_frame (wb_request mux address bytes (buf_req w)) (N + 4)
            = [0; mux; Z.lor 0x80 (Z.land (Z.shiftr address 8) 0x7F);
               Z.land address 0xFF] ++ bytes) as Hframe
      by (apply wb_request_frame; lia).
    split; [exact Hframe|]. rewrite Hframe, length_app. cbn [length]. lia.
  - pose proof (lgw_usb_rb_run E w target fd mux address data N Hh) as Hrun.
    cbn zeta in Hrun. rewrite (u16_small (N + 5)) in Hrun by lia.
    assert (request_frame (rb_request mux address N (buf_req w)) (N + 5)
            = [0; mux; Z.land (Z.shiftr address 8) 0x7F; Z.land address 0xFF; 0]
              ++ replicate (length bytes) 0) as Hframe.
    { rewrite rb_request_frame by lia. unfold N. rewrite Nat2Z.id. reflexivity. }
    set (req := rb_request mux address N (buf_req w)) in *.
    set (rep := spi_access_reply E (with_buf_req req w) fd req (N + 5)) in *.
    set (w2 := log (EvSpi fd req (N + 5) rep.1 rep.2) (with_buf_req req w)) in *.
    assert (∃ r w', lgw_usb_rb E (Some target) mux address (Some data) N w = Some (r, w')
                    ∧ trace w' = trace w2) as (r & w' & Hr & Htr).
    { rewrite Hrun by lia. destruct (rep.1 =? 0); [|eauto].
      destruct (memcpy_defined (take (Z.to_nat (N + 5)) rep.2) (Z.to_nat N) data 5 w2)
        as (w' & Hcpy & Htr & _).
      - intros i Hi. destruct (lookup_lt_is_Some_2 bytes (Z.to_nat i)) as [b Hb]; [lia|].
        exists (VByte b). cbn [heap w2 log with_buf_req].
        replace i with (Z.of_nat (Z.to_nat i)) by lia. apply Hbuf, Hb.
      - rewrite length_take. unfold rep. rewrite Hsym. lia.
      - unfold bind. rewrite Hcpy. unfold ret. eauto. }
    exists r, w', req, rep.1, rep.2. split; [exact Hr|].
    split; [rewrite Htr; reflexivity|].
    split; [exact Hframe|]. rewrite Hframe, length_app, length_replicate.
    cbn [length]. lia.
Qed.

Lemma world_ready_buffer : buffer_at (heap world_ready) 300 [0xAA; 0xBB; 0xCC; 0xDD].
Proof.
  intros i b Hi. destruct i as [|[|[|[|i]]]]; cbn in Hi; try discriminate Hi;
    injection Hi as <-; reflexivity.
Defined.

Lemma burst_frame_lengths_witness :
  (∃ r w' req rc reply,
     lgw_usb_wb (relay_stub 0 [] 0 0 0 0) (Some 200) 1 0x1234 (Some 300) 4 world_ready
       = Some (r, w') ∧
     trace w' = trace world_ready ++ [EvSpi 3 req (4 + 4) rc reply] ∧
     request_frame req (4 + 4)
       = [0; 1; Z.lor 0x80 (Z.land (Z.shiftr 0x1234 8) 0x7F); Z.land 0x1234 0xFF]
         ++ [0xAA; 0xBB; 0xCC; 0xDD] ∧
     Z.of_nat (length (request_frame req (4 + 4))) = 4 + 4)
  ∧
  (∃ r w' req rc reply,
     lgw_usb_rb (relay_stub 0 [] 0 0 0 0) (Some 200) 1 0x1234 (Some 300) 4 world_ready
       = Some (r, w') ∧
     trace w' = trace world_ready ++ [EvSpi 3 req (4 + 5) rc reply] ∧
     request_frame req (4 + 5)
       = [0; 1; Z.land (Z.shiftr 0x1234 8) 0x7F; Z.land 0x1234 0xFF; 0]
         ++ replicate 4 0 ∧
     Z.of_nat (length (request_frame req (4 + 5))) = 4 + 5).
Proof.
  destruct (burst_frame_lengths (relay_stub 0 [] 0 0 0 0) world_ready 200 3 1 0x1234 300
              [0xAA; 0xBB; 0xCC; 0xDD] eq_refl world_ready_buffer
              (relay_stub_symmetric 0 [] 0 0 0 0)) as [Hw Hr].
  split.
  - apply Hw; cbn; lia.
  - apply Hr; cbn; lia.
Defined.

(** C10. On a valid handle, when the relay fails on the frame of a single
    read, the read returns -1 and leaves the heap, hence the caller's
    byte, as it was; and, independently of that, when the relay fails on the
    frame of a burst read that [buf_req] has room for, the burst read
    returns -1 and leaves the heap, hence the caller's buffer, as it
    was. *)
Theorem read_failure_keeps_output E w target fd mux address dst size :
  heap w !! target = Some (VInt fd) →
  ((spi_access_reply E w fd
      [0; mux; Z.land (Z.shiftr address 8) 0x7F; Z.land address 0xFF; 0; 0] 6).1 ≠ 0 →
   ∃ w1,
     lgw_usb_r E (Some target) mux address (Some dst) w = Some (-1, w1) ∧
     heap w1 = heap w)
  ∧
  (0 ≤ size →
   size + 5 ≤ Z.of_nat (length (buf_req w)) →
   0 < u16 (size + 5) →
   (spi_access_reply E (with_buf_req (rb_request mux address size (buf_req w)) w) fd
      (rb_request mux address size (buf_req w)) (u16 (size + 5))).1 ≠ 0 →
   ∃ w2,
     lgw_usb_rb E (Some target) mux address (Some dst) size w = Some (-1, w2) ∧
     heap w2 = heap w).
Proof.
  intros Hh. split.
  - intros Hfail.
    pose proof (lgw_usb_r_run E w target fd mux address dst Hh) as Hr.
    cbn zeta in Hr. apply Z.eqb_neq in Hfail. rewrite Hfail in Hr.
    eexists. split; [exact Hr|reflexivity].
  - intros Hsize Hroom Hvla Hfail.
    pose proof (lgw_usb_rb_run E w target fd mux address dst size Hh Hsize Hroom Hvla)
      as Hrb.
    cbn zeta in Hrb. apply Z.eqb_neq in Hfail. rewrite Hfail in Hrb.
    eexists. split; [exact Hrb|reflexivity].
Qed.

Lemma read_failure_keeps_output_witness :
  (∃ w1,
     lgw_usb_r (relay_stub 0 [] 0 1 0x7F 0) (Some 200) 1 0x1234 (Some 300) world_ready
       = Some (-1, w1) ∧
     heap w1 = heap world_ready)
  ∧
  (∃ w2,
     lgw_usb_rb (relay_stub 0 [] 0 1 0x7F 0) (Some 200) 1 0x1234 (Some 300) 4
       world_ready = Some (-1, w2) ∧
     heap w2 = heap world_ready).
Proof.
  destruct (read_failure_keeps_output (relay_stub 0 [] 0 1 0x7F 0) world_ready 200 3
              1 0x1234 300 4 eq_refl) as [Hsingle Hburst].
  split.
  - apply Hsingle. cbn. lia.
  - apply Hburst.
    + lia.
    + cbn. lia.
    + reflexivity.
    + cbn. lia.
Defined.

(** ** Opening *)

Lemma bind_run {A B} (m : M A) (k : A → M B) w a w' :
  m w = Some (a, w') → bind m k w = k a w'.
Proof. intros Hm. unfold bind. rewrite Hm. reflexivity. Qed.

Lemma store_run l v w :
  is_Some (heap w !! l) →
  store l v w = Some (tt, with_heap (<[l := v]> (heap w)) w).
Proof. intros [v' Hv]. unfold store. rewrite Hv. reflexivity. Qed.

Lemma free_run l w :
  is_Some (heap w !! l) →
  free l w = Some (tt, with_heap (delete l (heap w)) w).
Proof. intros [v' Hv]. unfold free. rewrite Hv. reflexivity. Qed.

Lemma tcgetattr_frame E fd tty w : ∃ r, tcgetattr E fd tty w = Some (r, w).
Proof.
  unfold tcgetattr. destruct (ttys w !! fd); [|eauto].
  destruct (_ =? 0); eauto.
Qed.

Lemma tcsetattr_frame E fd tty w :
  ∃ rc w', tcsetattr E fd tty w = Some (rc, w') ∧
           heap w' = heap w ∧ fds w' = fds w ∧ trace w' = trace w.
Proof.
  unfold tcsetattr. destruct (ttys w !! fd); [|eauto 10].
  destruct (_ =? 0); eauto 10.
Qed.

(** The two configuration functions touch the terminal attributes only. *)
Lemma set_interface_attribs_linux_frame E fd speed w :
  ∃ x w', set_interface_attribs_linux E fd speed w = Some (x, w') ∧
          heap w' = heap w ∧ fds w' = fds w ∧ trace w' = trace w.
Proof.
  unfold set_interface_attribs_linux.
  destruct (tcgetattr_frame E fd termios_zero w) as [[rc t] Hg].
  rewrite (bind_run _ _ _ _ _ Hg).
  destruct (negb (rc =? 0)); [unfold ret; eauto 10|].
  match goal with |- context [tcsetattr E fd ?tty] =>
    destruct (tcsetattr_frame E fd tty w) as (rc' & w' & Hs & Hframe) end.
  rewrite (bind_run _ _ _ _ _ Hs).
  destruct (negb (rc' =? 0)); unfold ret; eauto 10.
Qed.

Lemma set_blocking_linux_frame E fd blocking w :
  ∃ x w', set_blocking_linux E fd blocking w = Some (x, w') ∧
          heap w' = heap w ∧ fds w' = fds w ∧ trace w' = trace w.
Proof.
  unfold set_blocking_linux.
  destruct (tcgetattr_frame E fd termios_zero w) as [[rc t] Hg].
  rewrite (bind_run _ _ _ _ _ Hg).
  destruct (negb (rc =? 0)); [unfold ret; eauto 10|].
  match goal with |- context [tcsetattr E fd ?tty] =>
    destruct (tcsetattr_frame E fd tty w) as (rc' & w' & Hs & Hframe) end.
  rewrite (bind_run _ _ _ _ _ Hs).
  destruct (negb (rc' =? 0)); unfold ret; eauto 10.
Qed.

(** Every run of [lgw_usb_open] on a path that fits [portname] and a valid
    [com_target_ptr] ends, in one of the seven ways of [open_outcome]. *)
Lemma lgw_usb_open_outcome E com_path target_ptr w :
  (String.length com_path < 50)%nat →
  is_Some (heap w !! target_ptr) →
  ping_comparable E →
  ∃ r w' evs,
    lgw_usb_open E com_path (Some target_ptr) w = Some (r, w') ∧
    trace w' = trace w ++ evs ∧
    open_outcome E w target_ptr r w' evs.
Proof.
  intros Hpath [v Hv] Hcmp. unfold lgw_usb_open.
  unfold bind at 1, malloc.
  destruct (malloc_fails E w).
  { exists LGW_USB_ERROR, w, []. rewrite app_nil_r. repeat split. constructor. }
  set (l := fresh (dom (heap w))).
  assert (heap w !! l = None) as Hfresh by apply not_elem_of_dom, is_fresh.
  assert (target_ptr ≠ l) as Hne by congruence.
  set (w0 := with_heap (<[l := VUninit]> (heap w)) w).
  unfold bind at 1, sprintf_s. rewrite decide_True by exact Hpath. unfold ret at 1.
  unfold bind at 1, open.
  set (fd := open_fd E w0 com_path).
  destruct (fd <? 0) eqn:Hfd; cbn beta iota; rewrite Hfd.
  { assert (is_Some (heap w0 !! l)) as Hl by (cbn; rewrite lookup_insert_eq; eauto).
    rewrite (bind_run _ _ _ _ _ (free_run l w0 Hl)).
    eexists _, _, []. split; [reflexivity|]. rewrite app_nil_r. split; [reflexivity|].
    apply OpenNoDevice; cbn; [|reflexivity]. apply delete_insert_id, Hfresh. }
  apply Z.ltb_ge in Hfd.
  match goal with |- context [with_ttys ?t (with_fds ?s w0)] =>
    set (w1 := with_ttys t (with_fds s w0)) end.
  destruct (set_interface_attribs_linux_frame E fd B115200 w1)
    as (x & w2 & Hrun2 & Hheap2 & Hfds2 & Htr2).
  rewrite (bind_run _ _ _ _ _ Hrun2).
  destruct (set_blocking_linux_frame E fd true w2)
    as (x' & w3 & Hrun3 & Hheap3 & Hfds3 & Htr3).
  rewrite (bind_run _ _ _ _ _ Hrun3).
  assert (heap w3 = <[l := VUninit]> (heap w)) as Hh3 by (rewrite Hheap3, Hheap2; reflexivity).
  assert (fds w3 = {[fd]} ∪ fds w) as Hf3 by (rewrite Hfds3, Hfds2; reflexivity).
  assert (trace w3 = trace w) as Ht3 by (rewrite Htr3, Htr2; reflexivity).
  clear Hrun2 Hrun3 Hheap2 Hheap3 Hfds2 Hfds3 Htr2 Htr3 w2 w1.
  assert (is_Some (heap w3 !! l)) as Hl3 by (rewrite Hh3, lookup_insert_eq; eauto).
  destruct (negb (Z.lor x x' =? 0)).
  { rewrite (bind_run _ _ _ _ _ (free_run l w3 Hl3)).
    eexists _, _, []. split; [reflexivity|]. rewrite app_nil_r. split; [exact Ht3|].
    apply (OpenConfigFailed _ _ _ fd); cbn; [exact Hfd| |exact Hf3].
    rewrite Hh3. apply delete_insert_id, Hfresh. }
  rewrite (bind_run _ _ _ _ _ (store_run l (VInt fd) w3 Hl3)).
  assert (is_Some (heap (with_heap (<[l := VInt fd]> (heap w3)) w3) !! target_ptr)) as Hp.
  { cbn. rewrite Hh3, lookup_insert_ne, lookup_insert_ne, Hv by congruence. eauto. }
  rewrite (bind_run _ _ _ _ _ (store_run target_ptr (VPtr (Some l)) _ Hp)).
  unfold bind at 1, srand, modify. unfold bind at 1, mcu_ping.
  cbn [heap with_heap].
  match goal with |- context [ping_reply E ?w' fd] => set (w5 := w') end.
  assert (heap w5 = published (heap w) target_ptr l fd) as Hh5.
  { cbn. rewrite Hh3, insert_insert_eq. reflexivity. }
  assert (fds w5 = {[fd]} ∪ fds w) as Hf5 by exact Hf3.
  assert (trace w5 = trace w) as Ht5 by exact Ht3.
  specialize (Hcmp w5 fd). clearbody w5. clear Hp Hl3 Hh3 Hf3 Ht3 w3.
  destruct (ping_reply E w5 fd) as [rc version]. cbn [fst snd] in *.
  destruct (rc =? 0) eqn:Hrc; cbn [negb].
  2:{ apply Z.eqb_neq in Hrc. eexists _, _, _. split; [reflexivity|].
      split; [cbn; rewrite Ht5; reflexivity|].
      apply OpenPingFailed; done. }
  apply Z.eqb_eq in Hrc. subst rc.
  destruct Hcmp as [c Hc]. pose proof Hc as Hc'. unfold version_check in Hc'.
  rewrite Hc'. clear Hc'.
  destruct (c =? 0) eqn:Hc0; cbn [negb].
  2:{ apply Z.eqb_neq in Hc0. eexists _, _, _. split; [reflexivity|].
      split; [cbn; rewrite Ht5; reflexivity|].
      apply (OpenVersionMismatch _ _ _ fd version c); done. }
  apply Z.eqb_eq in Hc0. subst c.
  unfold bind at 1, mcu_gpio_write at 1.
  set (w6 := log (EvPing fd 0 version) w5).
  set (x1 := gpio_write_rc E w6 fd 0 1 1).
  unfold bind at 1, mcu_gpio_write at 1.
  set (w7 := log (EvGpio fd 0 1 1 x1) w6).
  set (x2 := gpio_write_rc E w7 fd 0 2 1).
  unfold bind at 1, mcu_gpio_write at 1.
  set (w8 := log (EvGpio fd 0 2 1 x2) w7).
  set (x3 := gpio_write_rc E w8 fd 0 2 0).
  set (w9 := log (EvGpio fd 0 2 0 x3) w8).
  assert (trace w9 = trace w ++ [EvPing fd 0 version; EvGpio fd 0 1 1 x1;
                                 EvGpio fd 0 2 1 x2; EvGpio fd 0 2 0 x3]) as Ht9.
  { cbn. rewrite Ht5, <- !app_assoc. reflexivity. }
  destruct (Z.lor (Z.lor x1 x2) x3 =? 0) eqn:Hx; cbn [negb].
  - apply Z.eqb_eq, Z.lor_eq_0_iff in Hx as [Hx12 Hx3].
    apply Z.lor_eq_0_iff in Hx12 as [Hx1 Hx2].
    eexists _, _, _. split; [reflexivity|]. split; [exact Ht9|].
    rewrite Hx1, Hx2, Hx3. apply OpenReady; done.
  - apply Z.eqb_neq in Hx.
    assert (is_Some (heap w9 !! l)) as Hl9.
    { cbn. rewrite Hh5. unfold published.
      rewrite lookup_insert_ne, lookup_insert_eq by done. eauto. }
    rewrite (bind_run _ _ _ _ _ (free_run l w9 Hl9)).
    eexists _, _, _. split; [reflexivity|]. split; [exact Ht9|].
    apply OpenResetFailed; try done. cbn. rewrite Hh5. reflexivity.
Qed.


(** The GPIO calls that follow the ping in a trace are not pings. *)
Ltac not_among_gpio H :=
  repeat (apply elem_of_cons in H as [H|H]; [discriminate H|]);
  apply elem_of_nil in H; contradiction.

(** C1, as stated, fails: when the ping fails, and when the version
    differs, [lgw_usb_open] returns the error but the handle's cell (101,
    which the caller's pointer 100 now holds) is still allocated and the
    descriptor 3 it opened is still open. *)
Lemma failed_handshake_leaks :
  (∃ w', lgw_usb_open (relay_stub (-1) [82; 49; 46; 48; 0] 0 0 0 0) "/dev/ttyACM0"
           (Some 100) world_closed = Some (LGW_USB_ERROR, w') ∧
         trace w' = [EvPing 3 (-1) [82; 49; 46; 48; 0]] ∧
         heap w' !! 100 = Some (VPtr (Some 101)) ∧
         heap w' !! 101 = Some (VInt 3) ∧
         3 ∈ fds w') ∧
  (∃ w', lgw_usb_open (relay_stub 0 [82; 50; 46; 48; 0] 0 0 0 0) "/dev/ttyACM0"
           (Some 100) world_closed = Some (-1, w') ∧
         trace w' = [EvPing 3 0 [82; 50; 46; 48; 0]] ∧
         heap w' !! 100 = Some (VPtr (Some 101)) ∧
         heap w' !! 101 = Some (VInt 3) ∧
         3 ∈ fds w').
Proof.
  split; (eexists; split; [vm_compute; reflexivity|]);
    (split; [reflexivity|]); (split; [reflexivity|]); (split; [reflexivity|]);
    refine (bool_decide_unpack _ _); vm_compute; exact I.
Qed.

(** C1, amended. On a path that fits [portname] and a valid
    [com_target_ptr], [lgw_usb_open] returns; and when its handshake
    fails (the ping fails, or the version without its first character is
    not the expected one) it returns -1 and the descriptor it opened is
    still open. *)
Theorem handshake_failure E com_path target_ptr w :
  (String.length com_path < 50)%nat →
  is_Some (heap w !! target_ptr) →
  ping_comparable E →
  ∃ r w' evs,
    lgw_usb_open E com_path (Some target_ptr) w = Some (r, w') ∧
    trace w' = trace w ++ evs ∧
    ∀ fd rc version,
      EvPing fd rc version ∈ evs → handshake_fails E rc version →
      r = -1 ∧ fd ∈ fds w'.
Proof.
  intros Hpath Hptr Hcmp.
  destruct (lgw_usb_open_outcome E com_path target_ptr w Hpath Hptr Hcmp)
    as (r & w' & evs & Hrun & Htr & Hout).
  exists r, w', evs. split; [exact Hrun|]. split; [exact Htr|].
  intros fd' rc' version' Hin Hfail.
  destruct Hout as [ | ? ? ? | ? ? ? ? ? | fd rc version w' ? ? ? Hfds
                   | fd version c w' ? ? ? ? Hfds
                   | fd version x1 x2 x3 w' ? Hver ? ? ?
                   | fd version w' ? Hver ? ? ];
    try (apply elem_of_nil in Hin; contradiction).
  - apply list_elem_of_singleton in Hin. injection Hin as -> -> ->.
    split; [reflexivity|]. rewrite Hfds.
    apply elem_of_union_l, elem_of_singleton. reflexivity.
  - apply list_elem_of_singleton in Hin. injection Hin as -> -> ->.
    split; [reflexivity|]. rewrite Hfds.
    apply elem_of_union_l, elem_of_singleton. reflexivity.
  - apply elem_of_cons in Hin as [Hin|Hin].
    + injection Hin as -> -> ->. destruct Hfail as [Hrc|Hv]; [done|]. contradiction.
    + not_among_gpio Hin.
  - apply elem_of_cons in Hin as [Hin|Hin].
    + injection Hin as -> -> ->. destruct Hfail as [Hrc|Hv]; [done|]. contradiction.
    + not_among_gpio Hin.
Qed.

Lemma relay_stub_comparable ping_rc version gpio_rc spi_rc spi_byte close :
  is_Some (strncmp (drop 1 version) stub_version (length stub_version)) →
  ping_comparable (relay_stub ping_rc version gpio_rc spi_rc spi_byte close).
Proof. intros Hv w fd. exact Hv. Defined.

Lemma handshake_failure_witness :
  ∃ r w' evs,
    lgw_usb_open (relay_stub (-1) [82; 49; 46; 48; 0] 0 0 0 0) "/dev/ttyACM0"
      (Some 100) world_closed = Some (r, w') ∧
    trace w' = trace world_closed ++ evs ∧
    ∀ fd rc version,
      EvPing fd rc version ∈ evs →
      handshake_fails (relay_stub (-1) [82; 49; 46; 48; 0] 0 0 0 0) rc version →
      r = -1 ∧ fd ∈ fds w'.
Proof.
  apply (handshake_failure (relay_stub (-1) [82; 49; 46; 48; 0] 0 0 0 0) "/dev/ttyACM0"
           100 world_closed).
  - cbn. lia.
  - exists (VPtr None). reflexivity.
  - apply relay_stub_comparable. exists 0. reflexivity.
Defined.

(** C6, as stated, fails: a run of [lgw_usb_open] that gets through the
    handshake makes three GPIO writes through the relay, not two. *)
Lemma reset_makes_three_gpio_writes :
  ∃ w', lgw_usb_open (relay_stub 0 [82; 49; 46; 48; 0] 0 0 0 0) "/dev/ttyACM0"
          (Some 100) world_closed = Some (LGW_USB_SUCCESS, w') ∧
        gpio_writes (trace w') = [(0, 1, 1); (0, 2, 1); (0, 2, 0)] ∧
        length (gpio_writes (trace w')) ≠ 2%nat.
Proof.
  eexists. split; [vm_compute; reflexivity|].
  split; [reflexivity|]. cbn. lia.
Qed.

(** C6, amended. On a path that fits [portname] and a valid
    [com_target_ptr], [lgw_usb_open] returns; and when its handshake
    passes it makes exactly three GPIO writes through the relay, in this
    order: pin 1 of port 0 to 1 (power enable), pin 2 of port 0 to 1
    (reset active), pin 2 of port 0 to 0 (reset inactive).  If any of the
    three fails, it returns [LGW_USB_ERROR] and the cell [malloc] gave for
    the handle is freed; if none fails it returns [LGW_USB_SUCCESS] and
    the cell holds the descriptor. *)
Theorem reset_sequence E com_path target_ptr w :
  (String.length com_path < 50)%nat →
  is_Some (heap w !! target_ptr) →
  ping_comparable E →
  ∃ r w' evs,
    lgw_usb_open E com_path (Some target_ptr) w = Some (r, w') ∧
    trace w' = trace w ++ evs ∧
    ∀ fd version,
      EvPing fd 0 version ∈ evs → version_check E version = Some 0 →
      gpio_writes evs = [(0, 1, 1); (0, 2, 1); (0, 2, 0)] ∧
      ((∃ rc, rc ∈ gpio_codes evs ∧ rc ≠ 0) →
         r = LGW_USB_ERROR ∧ heap w' !! fresh (dom (heap w)) = None) ∧
      ((∀ rc, rc ∈ gpio_codes evs → rc = 0) →
         r = LGW_USB_SUCCESS ∧ heap w' !! fresh (dom (heap w)) = Some (VInt fd)).
Proof.
  intros Hpath Hptr Hcmp.
  destruct (lgw_usb_open_outcome E com_path target_ptr w Hpath Hptr Hcmp)
    as (r & w' & evs & Hrun & Htr & Hout).
  exists r, w', evs. split; [exact Hrun|]. split; [exact Htr|].
  intros fd' version' Hin Hpass.
  assert (heap w !! fresh (dom (heap w)) = None) as Hfresh
    by apply not_elem_of_dom, is_fresh.
  assert (target_ptr ≠ fresh (dom (heap w))) as Hne
    by (destruct Hptr as [v Hv]; congruence).
  destruct Hout as [ | ? ? ? | ? ? ? ? ? | fd rc version w' ? Hrc ? ?
                   | fd version c w' ? Hver Hc ? ?
                   | fd version x1 x2 x3 w' ? Hver Hx Hheap ?
                   | fd version w' ? Hver Hheap ? ];
    try (apply elem_of_nil in Hin; contradiction).
  - apply list_elem_of_singleton in Hin. congruence.
  - apply list_elem_of_singleton in Hin. congruence.
  - split; [reflexivity|]. cbn [gpio_codes omap list_omap]. split.
    + intros _. split; [reflexivity|]. rewrite Hheap. apply lookup_delete_eq.
    + intros Hzero. exfalso. apply Hx.
      rewrite (Hzero x1), (Hzero x2), (Hzero x3); [reflexivity|..];
        repeat ((apply list_elem_of_here) || (apply list_elem_of_further)).
  - apply elem_of_cons in Hin as [Hin|Hin].
    2:{ not_among_gpio Hin. }
    injection Hin as -> ->.
    split; [reflexivity|]. cbn [gpio_codes omap list_omap]. split.
    + intros (rc & Hrc & Hnz). exfalso. apply Hnz.
      repeat (apply elem_of_cons in Hrc as [Hrc|Hrc]; [exact Hrc|]).
      apply elem_of_nil in Hrc. contradiction.
    + intros _. split; [reflexivity|]. rewrite Hheap. unfold published.
      rewrite lookup_insert_ne by exact Hne. apply lookup_insert_eq.
Qed.

Lemma reset_sequence_witness :
  ∃ r w' evs,
    lgw_usb_open (relay_stub 0 [82; 49; 46; 48; 0] 1 0 0 0) "/dev/ttyACM0"
      (Some 100) world_closed = Some (r, w') ∧
    trace w' = trace world_closed ++ evs ∧
    ∀ fd version,
      EvPing fd 0 version ∈ evs →
      version_check (relay_stub 0 [82; 49; 46; 48; 0] 1 0 0 0) version = Some 0 →
      gpio_writes evs = [(0, 1, 1); (0, 2, 1); (0, 2, 0)] ∧
      ((∃ rc, rc ∈ gpio_codes evs ∧ rc ≠ 0) →
         r = LGW_USB_ERROR ∧ heap w' !! fresh (dom (heap world_closed)) = None) ∧
      ((∀ rc, rc ∈ gpio_codes evs → rc = 0) →
         r = LGW_USB_SUCCESS ∧
         heap w' !! fresh (dom (heap world_closed)) = Some (VInt fd)).
Proof.
  apply (reset_sequence (relay_stub 0 [82; 49; 46; 48; 0] 1 0 0 0) "/dev/ttyACM0"
           100 world_closed).
  - cbn. lia.
  - exists (VPtr None). reflexivity.
  - apply relay_stub_comparable. exists 0. reflexivity.
Defined.

(** * Further properties *)

(** ** The version comparison *)

(** [strncmp] over the whole of a terminated string [s ++ [0]] gives 0
    exactly on the arrays that start with that string and its
    terminator. *)
Lemma strncmp_terminated s : ∀ t,
  Forall (λ c, c ≠ 0) s →
  strncmp t (s ++ [0]) (length (s ++ [0])) = Some 0 ↔ ∃ rest, t = s ++ 0 :: rest.
Proof.
  induction s as [|a s IH]; intros t Hs.
  - destruct t as [|c t]; cbn.
    + split; [discriminate|]. intros [rest Hrest]. discriminate Hrest.
    + destruct (Z.eqb_spec c 0) as [->|Hc]; cbn.
      * split; [eauto|reflexivity].
      * split.
        -- intros [= Hz]. lia.
        -- intros [rest [= Hz _]]. contradiction.
  - apply Forall_cons in Hs as [Ha Hs].
    destruct t as [|c t]; cbn.
    + split; [discriminate|]. intros [rest Hrest]. discriminate Hrest.
    + destruct (Z.eqb_spec c a) as [->|Hc]; cbn.
      * rewrite (proj2 (Z.eqb_neq a 0)) by exact Ha.
        rewrite (IH t Hs). split; intros [rest Hrest]; exists rest; congruence.
      * split.
        -- intros [= Hz]. lia.
        -- intros [rest [= Hz _]]. contradiction.
Qed.

(** X1. When the expected version is a string [s] and its terminator, the
    version check of [lgw_usb_open] passes exactly on the arrays made of
    one character, whichever it is, then [s] and a terminator. *)
Theorem version_check_ignores_first_char E s version :
  mcu_version_string E = s ++ [0] →
  Forall (λ c, c ≠ 0) s →
  version_check E version = Some 0 ↔ ∃ c rest, version = c :: s ++ 0 :: rest.
Proof.
  intros Hv Hs. unfold version_check. rewrite Hv, (strncmp_terminated s _ Hs).
  destruct version as [|c t]; cbn.
  - split; [intros [rest Hrest]; destruct s; discriminate Hrest|].
    intros (c & rest & Hrest). discriminate Hrest.
  - rewrite drop_0. split.
    + intros [rest ->]. eauto.
    + intros (c' & rest & [= _ ->]). eauto.
Qed.

Lemma version_check_ignores_first_char_witness :
  version_check (relay_stub 0 [] 0 0 0 0) [82; 49; 46; 48; 0] = Some 0 ↔
  ∃ c rest, [82; 49; 46; 48; 0] = c :: [49; 46; 48] ++ 0 :: rest.
Proof.
  apply (version_check_ignores_first_char (relay_stub 0 [] 0 0 0 0) [49; 46; 48]).
  - reflexivity.
  - repeat constructor; discriminate.
Defined.

(** ** What the register operations return and touch *)

(** X2. On a valid handle a single write calls the relay once, returns 0
    when the relay returned 0 and -1 otherwise, and changes nothing else
    in the world; the caller's memory in particular. *)
Theorem single_write_result E w target fd mux address data :
  heap w !! target = Some (VInt fd) →
  ∃ r w' out rc reply,
    lgw_usb_w E (Some target) mux address data w = Some (r, w') ∧
    w' = log (EvSpi fd out 5 rc reply) w ∧
    (rc, reply) = spi_access_reply E w fd out 5 ∧
    (rc = 0 → r = 0) ∧ (rc ≠ 0 → r = -1).
Proof.
  intros Hh. eexists _, _, _, _, _.
  split; [apply (lgw_usb_w_run E _ _ _ _ _ _ Hh)|].
  split; [reflexivity|]. split; [symmetry; apply surjective_pairing|].
  destruct (Z.eqb_spec (spi_access_reply E w fd
    [0; mux; Z.lor 128 (Z.land (Z.shiftr address 8) 127); Z.land address 255; data] 5).1 0);
    split; intros; (reflexivity || contradiction).
Qed.

Lemma single_write_result_witness :
  ∃ r w' out rc reply,
    lgw_usb_w (relay_stub 0 [] 0 7 0 0) (Some 200) 1 0x1234 0x56 world_ready
      = Some (r, w') ∧
    w' = log (EvSpi 3 out 5 rc reply) world_ready ∧
    (rc, reply) = spi_access_reply (relay_stub 0 [] 0 7 0 0) world_ready 3 out 5 ∧
    (rc = 0 → r = 0) ∧ (rc ≠ 0 → r = -1).
Proof.
  apply (single_write_result (relay_stub 0 [] 0 7 0 0) world_ready 200 3 1 0x1234 0x56).
  reflexivity.
Defined.

(** X3. On a valid handle and an allocated output byte, a single read
    whose relay call succeeds returns 0 and stores byte 5 of the reply, the
    last of the six, in the output byte; every other cell of the heap is
    as it was. *)
Theorem single_read_value E w target fd mux address dst reply b :
  heap w !! target = Some (VInt fd) →
  is_Some (heap w !! dst) →
  spi_access_reply E w fd
    [0; mux; Z.land (Z.shiftr address 8) 0x7F; Z.land address 0xFF; 0; 0] 6
    = (0, reply) →
  reply !! 5%nat = Some b →
  ∃ w', lgw_usb_r E (Some target) mux address (Some dst) w = Some (0, w') ∧
        heap w' = <[dst := VByte b]> (heap w) ∧
        trace w' = trace w ++
          [EvSpi fd [0; mux; Z.land (Z.shiftr address 8) 0x7F; Z.land address 0xFF; 0; 0]
             6 0 reply].
Proof.
  intros Hh Hdst Hrelay Hb.
  rewrite (lgw_usb_r_run E w target fd mux address dst Hh). cbn zeta.
  rewrite Hrelay. cbn [fst snd Z.eqb]. rewrite Hb.
  destruct Hdst as [v Hv]. unfold bind, store, ret. cbn [heap log]. rewrite Hv.
  eexists. split; [reflexivity|]. split; reflexivity.
Qed.

Lemma single_read_value_witness :
  ∃ w', lgw_usb_r (relay_stub 0 [] 0 0 0x5A 0) (Some 200) 1 0x1234 (Some 300) world_ready
          = Some (0, w') ∧
        heap w' = <[300 := VByte 0x5A]> (heap world_ready) ∧
        trace w' = trace world_ready ++
          [EvSpi 3 [0; 1; Z.land (Z.shiftr 0x1234 8) 0x7F; Z.land 0x1234 0xFF; 0; 0]
             6 0 (replicate 6 0x5A)].
Proof.
  apply (single_read_value (relay_stub 0 [] 0 0 0x5A 0) world_ready 200 3 1 0x1234 300
           (replicate 6 0x5A) 0x5A).
  - reflexivity.
  - exists (VByte 0xAA). reflexivity.
  - reflexivity.
  - reflexivity.
Defined.

(** [memcpy] into allocated cells from an array that is long enough: the
    cells get the bytes, the rest of the world stays. *)
Lemma memcpy_spec src n : ∀ dst off w,
  (∀ i, 0 ≤ i < Z.of_nat n → is_Some (heap w !! (dst + i))) →
  (off + n ≤ length src)%nat →
  ∃ w', memcpy dst src off n w = Some (tt, w') ∧
        trace w' = trace w ∧ buf_req w' = buf_req w ∧
        fds w' = fds w ∧ ttys w' = ttys w ∧
        (∀ i : nat, (i < n)%nat →
           heap w' !! (dst + Z.of_nat i) = VByte <$> src !! (off + i)%nat) ∧
        (∀ l, l < dst ∨ dst + Z.of_nat n ≤ l → heap w' !! l = heap w !! l).
Proof.
  induction n as [|n IH]; intros dst off w Hdst Hsrc; cbn [memcpy].
  - eexists. split; [reflexivity|]. repeat split; try done. intros i Hi. lia.
  - destruct (lookup_lt_is_Some_2 src off) as [b Hb]; [lia|]. rewrite Hb.
    assert (is_Some (heap w !! dst)) as Hd.
    { specialize (Hdst 0). rewrite Z.add_0_r in Hdst. apply Hdst. lia. }
    rewrite (bind_run _ _ _ _ _ (store_run dst (VByte b) w Hd)).
    destruct (IH (dst + 1) (S off) (with_heap (<[dst := VByte b]> (heap w)) w))
      as (w' & Hrun & Htr & Hreq & Hfds & Httys & Hin & Hout).
    + intros i Hi. cbn [heap with_heap]. apply lookup_insert_is_Some'. right.
      replace (dst + 1 + i) with (dst + (1 + i)) by lia. apply Hdst. lia.
    + lia.
    + exists w'. split; [exact Hrun|]. do 4 (split; [done|]). split.
      * intros [|i] Hi.
        -- rewrite Z.add_0_r, Nat.add_0_r, Hout by lia. cbn [heap with_heap].
           rewrite lookup_insert_eq, Hb. reflexivity.
        -- replace (dst + Z.of_nat (S i)) with (dst + 1 + Z.of_nat i) by lia.
           replace (off + S i)%nat with (S off + i)%nat by lia. apply Hin. lia.
      * intros l Hl. rewrite Hout by lia. cbn [heap with_heap].
        apply lookup_insert_ne. lia.
Qed.

(** X4. On a valid handle, for a burst of N bytes with N + 5 below 2 ^ 16
    that [buf_req] has room for and an allocated output buffer: when the
    relay succeeds with a reply of at least N + 5 bytes, the burst read
    returns 0, the output buffer holds bytes 5 to 5 + N of the reply, and
    every cell outside the buffer is as it was. *)
Theorem burst_read_payload E w target fd mux address dst size reply :
  heap w !! target = Some (VInt fd) →
  0 ≤ size →
  size + 5 ≤ Z.of_nat (length (buf_req w)) →
  size + 5 < 65536 →
  (∀ i, 0 ≤ i < size → is_Some (heap w !! (dst + i))) →
  let req := rb_request mux address size (buf_req w) in
  spi_access_reply E (with_buf_req req w) fd req (size + 5) = (0, reply) →
  size + 5 ≤ Z.of_nat (length reply) →
  ∃ w', lgw_usb_rb E (Some target) mux address (Some dst) size w = Some (0, w') ∧
        (∀ i : nat, Z.of_nat i < size →
           heap w' !! (dst + Z.of_nat i) = VByte <$> reply !! (5 + i)%nat) ∧
        (∀ l, l < dst ∨ dst + size ≤ l → heap w' !! l = heap w !! l) ∧
        trace w' = trace w ++ [EvSpi fd req (size + 5) 0 reply].
Proof.
  intros Hh Hsize Hroom Hfit Hdst req Hrelay Hreply.
  pose proof (lgw_usb_rb_run E w target fd mux address dst size Hh Hsize Hroom) as Hrun.
  cbn zeta in Hrun. rewrite (u16_small (size + 5)) in Hrun by lia.
  fold req in Hrun. rewrite Hrelay in Hrun. cbn [fst snd Z.eqb] in Hrun.
  rewrite Hrun by lia. clear Hrun.
  set (w2 := log (EvSpi fd req (size + 5) 0 reply) (with_buf_req req w)).
  destruct (memcpy_spec (take (Z.to_nat (size + 5)) reply) (Z.to_nat size) dst 5 w2)
    as (w' & Hcpy & Htr & _ & _ & _ & Hin & Hout).
  - intros i Hi. apply Hdst. lia.
  - rewrite length_take. lia.
  - rewrite (bind_run _ _ _ _ _ Hcpy). exists w'. split; [reflexivity|]. split.
    + intros i Hi. rewrite Hin by lia. rewrite lookup_take_lt by lia. reflexivity.
    + split; [|rewrite Htr; reflexivity].
      intros l Hl. rewrite Hout by lia. reflexivity.
Qed.

Lemma world_ready_allocated :
  ∀ i, 0 ≤ i < 4 → is_Some (heap world_ready !! (300 + i)).
Proof.
  intros i Hi.
  assert (i = 0 ∨ i = 1 ∨ i = 2 ∨ i = 3) as [-> | [-> | [-> | ->]]] by lia;
    eexists; reflexivity.
Defined.

Lemma burst_read_payload_witness :
  ∃ w', lgw_usb_rb (relay_stub 0 [] 0 0 0x5A 0) (Some 200) 1 0x1234 (Some 300) 4
          world_ready = Some (0, w') ∧
        (∀ i : nat, Z.of_nat i < 4 →
           heap w' !! (300 + Z.of_nat i) = VByte <$> replicate 9 0x5A !! (5 + i)%nat) ∧
        (∀ l, l < 300 ∨ 300 + 4 ≤ l → heap w' !! l = heap world_ready !! l) ∧
        trace w' = trace world_ready ++
          [EvSpi 3 (rb_request 1 0x1234 4 (buf_req world_ready)) (4 + 5) 0
             (replicate 9 0x5A)].
Proof.
  apply (burst_read_payload (relay_stub 0 [] 0 0 0x5A 0) world_ready 200 3 1 0x1234 300 4
           (replicate 9 0x5A)).
  - reflexivity.
  - lia.
  - cbn. lia.
  - lia.
  - exact world_ready_allocated.
  - reflexivity.
  - cbn. lia.
Defined.

(** X5. On a valid handle, for a burst of N bytes the caller's buffer
    holds and [buf_req] has room for, the burst write calls the relay once
    with the length (N + 4) mod 2 ^ 16, returns 0 when the relay returned
    0 and -1 otherwise, leaves the heap and the descriptors as they were,
    and overwrites [buf_req] up to index N + 4 only. *)
Theorem burst_write_effect E w target fd mux address data bytes :
  heap w !! target = Some (VInt fd) →
  buffer_at (heap w) data bytes →
  let N := Z.of_nat (length bytes) in
  N + 4 ≤ Z.of_nat (length (buf_req w)) →
  0 < u16 (N + 4) →
  ∃ r w' rc reply,
    lgw_usb_wb E (Some target) mux address (Some data) N w = Some (r, w') ∧
    trace w' = trace w ++ [EvSpi fd (buf_req w') (u16 (N + 4)) rc reply] ∧
    (rc = 0 → r = 0) ∧ (rc ≠ 0 → r = -1) ∧
    heap w' = heap w ∧ fds w' = fds w ∧
    length (buf_req w') = length (buf_req w) ∧
    (∀ j, (4 + length bytes ≤ j)%nat → buf_req w' !! j = buf_req w !! j).
Proof.
  intros Hh Hbuf N Hroom Hvla.
  pose proof (lgw_usb_wb_run E w target fd mux address data bytes Hh Hbuf Hroom Hvla)
    as Hrun. cbn zeta in Hrun. fold N in Hrun.
  set (req := wb_request mux address bytes (buf_req w)) in *.
  set (rep := spi_access_reply E (with_buf_req req w) fd req (u16 (N + 4))) in *.
  eexists _, _, rep.1, rep.2. split; [exact Hrun|].
  split; [reflexivity|].
  split; [intros Hz; rewrite Hz; reflexivity|].
  split; [intros Hz; apply Z.eqb_neq in Hz; rewrite Hz; reflexivity|].
  split; [reflexivity|]. split; [reflexivity|]. cbn [buf_req log with_buf_req].
  unfold req, wb_request. split.
  - rewrite length_inserts, !length_insert. reflexivity.
  - intros j Hj. rewrite list_lookup_inserts_ge by lia.
    rewrite !list_lookup_insert_ne by lia. reflexivity.
Qed.

Lemma burst_write_effect_witness :
  ∃ r w' rc reply,
    lgw_usb_wb (relay_stub 0 [] 0 7 0 0) (Some 200) 1 0x1234 (Some 300) 4 world_ready
      = Some (r, w') ∧
    trace w' = trace world_ready ++ [EvSpi 3 (buf_req w') (u16 (4 + 4)) rc reply] ∧
    (rc = 0 → r = 0) ∧ (rc ≠ 0 → r = -1) ∧
    heap w' = heap world_ready ∧ fds w' = fds world_ready ∧
    length (buf_req w') = length (buf_req world_ready) ∧
    (∀ j, (4 + 4 ≤ j)%nat → buf_req w' !! j = buf_req world_ready !! j).
Proof.
  apply (burst_write_effect (relay_stub 0 [] 0 7 0 0) world_ready 200 3 1 0x1234 300
           [0xAA; 0xBB; 0xCC; 0xDD]).
  - reflexivity.
  - exact world_ready_buffer.
  - cbn. lia.
  - reflexivity.
Defined.

(** A single read on a valid handle returns when the relay fills its
    reply and the output byte is allocated. *)
Lemma lgw_usb_r_returns E w target fd mux address dst :
  heap w !! target = Some (VInt fd) →
  is_Some (heap w !! dst) →
  relay_symmetric E →
  ∃ r w' rc reply,
    lgw_usb_r E (Some target) mux address (Some dst) w = Some (r, w') ∧
    trace w' = trace w ++
      [EvSpi fd [0; mux; Z.land (Z.shiftr address 8) 0x7F; Z.land address 0xFF; 0; 0]
         6 rc reply].
Proof.
  intros Hh [v Hv] Hsym.
  rewrite (lgw_usb_r_run E w target fd mux address dst Hh). cbn zeta.
  set (out := [0; mux; Z.land (Z.shiftr address 8) 0x7F; Z.land address 0xFF; 0; 0]).
  destruct (_ =? 0); [|eauto 10].
  destruct (lookup_lt_is_Some_2 (spi_access_reply E w fd out 6).2 5) as [b Hb].
  { rewrite Hsym. change (Z.to_nat 6) with 6%nat. lia. }
  rewrite Hb. unfold bind, store, ret. cbn [heap log]. rewrite Hv. eauto 10.
Qed.

(** A burst read on a valid handle returns when [buf_req] has room, the
    relay fills its reply and the output buffer is allocated. *)
Lemma lgw_usb_rb_returns E w target fd mux address dst size :
  heap w !! target = Some (VInt fd) →
  0 ≤ size →
  size + 5 ≤ Z.of_nat (length (buf_req w)) →
  size + 5 < 65536 →
  (∀ i, 0 ≤ i < size → is_Some (heap w !! (dst + i))) →
  relay_symmetric E →
  ∃ r w' rc reply,
    lgw_usb_rb E (Some target) mux address (Some dst) size w = Some (r, w') ∧
    trace w' = trace w ++
      [EvSpi fd (rb_request mux address size (buf_req w)) (size + 5) rc reply].
Proof.
  intros Hh Hsize Hroom Hfit Hdst Hsym.
  pose proof (lgw_usb_rb_run E w target fd mux address dst size Hh Hsize Hroom) as Hrun.
  cbn zeta in Hrun. rewrite (u16_small (size + 5)) in Hrun by lia.
  rewrite Hrun by lia. clear Hrun.
  set (req := rb_request mux address size (buf_req w)).
  set (rep := spi_access_reply E (with_buf_req req w) fd req (size + 5)).
  set (w2 := log (EvSpi fd req (size + 5) rep.1 rep.2) (with_buf_req req w)).
  destruct (rep.1 =? 0); [|eauto 10].
  destruct (memcpy_defined (take (Z.to_nat (size + 5)) rep.2) (Z.to_nat size) dst 5 w2)
    as (w' & Hcpy & Htr & _).
  - intros i Hi. apply Hdst. lia.
  - rewrite length_take. unfold rep. rewrite Hsym. lia.
  - rewrite (bind_run _ _ _ _ _ Hcpy). unfold ret.
    exists 0, w', rep.1, rep.2. split; [reflexivity|]. rewrite Htr. reflexivity.
Qed.

(** X6. On the wire a single access is a burst of one byte: on a valid
    handle the single write of a byte and the burst write of that one byte
    hand the relay the same five-byte frame, and the single read and the
    burst read of one byte hand it the same six-byte frame. *)
Theorem single_access_is_burst_of_one E w target fd mux address data b dst :
  heap w !! target = Some (VInt fd) →
  heap w !! data = Some (VByte b) →
  is_Some (heap w !! dst) →
  relay_symmetric E →
  (6 ≤ length (buf_req w))%nat →
  ∃ r1 w1 out1 rc1 reply1 r2 w2 out2 rc2 reply2
    r3 w3 out3 rc3 reply3 r4 w4 out4 rc4 reply4,
    lgw_usb_w E (Some target) mux address b w = Some (r1, w1) ∧
    trace w1 = trace w ++ [EvSpi fd out1 5 rc1 reply1] ∧
    lgw_usb_wb E (Some target) mux address (Some data) 1 w = Some (r2, w2) ∧
    trace w2 = trace w ++ [EvSpi fd out2 5 rc2 reply2] ∧
    request_frame out2 5 = request_frame out1 5 ∧
    lgw_usb_r E (Some target) mux address (Some dst) w = Some (r3, w3) ∧
    trace w3 = trace w ++ [EvSpi fd out3 6 rc3 reply3] ∧
    lgw_usb_rb E (Some target) mux address (Some dst) 1 w = Some (r4, w4) ∧
    trace w4 = trace w ++ [EvSpi fd out4 6 rc4 reply4] ∧
    request_frame out4 6 = request_frame out3 6.
Proof.
  intros Hh Hdata Hdst Hsym Hroom.
  assert (buffer_at (heap w) data [b]) as Hbuf.
  { intros [|i] b' Hi; [|discriminate Hi]. injection Hi as <-.
    rewrite Z.add_0_r. exact Hdata. }
  pose proof (lgw_usb_wb_run E w target fd mux address data [b] Hh Hbuf) as Hwb.
  cbn zeta in Hwb. change (Z.of_nat (length [b])) with 1 in Hwb.
  change (u16 (1 + 4)) with 5 in Hwb.
  destruct (lgw_usb_r_returns E w target fd mux address dst Hh Hdst Hsym)
    as (r3 & w3 & rc3 & reply3 & Hr & Htr3).
  destruct (lgw_usb_rb_returns E w target fd mux address dst 1 Hh) as
    (r4 & w4 & rc4 & reply4 & Hrb & Htr4); [lia|lia|lia| |exact Hsym|].
  { intros i Hi. replace i with 0 by lia. rewrite Z.add_0_r. exact Hdst. }
  eexists _, _, _, _, _, _, _, _, _, _, r3, w3, _, rc3, reply3, r4, w4, _, rc4, reply4.
  split; [apply (lgw_usb_w_run E _ _ _ _ _ _ Hh)|]. split; [reflexivity|].
  split; [apply Hwb; [lia|reflexivity]|]. split; [reflexivity|].
  split; [apply (wb_request_frame mux address [b]); cbn [length]; lia|].
  split; [exact Hr|]. split; [exact Htr3|].
  split; [exact Hrb|]. split; [exact Htr4|].
  apply (rb_request_frame mux address 1); lia.
Qed.

Lemma single_access_is_burst_of_one_witness :
  ∃ r1 w1 out1 rc1 reply1 r2 w2 out2 rc2 reply2
    r3 w3 out3 rc3 reply3 r4 w4 out4 rc4 reply4,
    lgw_usb_w (relay_stub 0 [] 0 0 0 0) (Some 200) 1 0x1234 0xAA world_ready
      = Some (r1, w1) ∧
    trace w1 = trace world_ready ++ [EvSpi 3 out1 5 rc1 reply1] ∧
    lgw_usb_wb (relay_stub 0 [] 0 0 0 0) (Some 200) 1 0x1234 (Some 300) 1 world_ready
      = Some (r2, w2) ∧
    trace w2 = trace world_ready ++ [EvSpi 3 out2 5 rc2 reply2] ∧
    request_frame out2 5 = request_frame out1 5 ∧
    lgw_usb_r (relay_stub 0 [] 0 0 0 0) (Some 200) 1 0x1234 (Some 301) world_ready
      = Some (r3, w3) ∧
    trace w3 = trace world_ready ++ [EvSpi 3 out3 6 rc3 reply3] ∧
    lgw_usb_rb (relay_stub 0 [] 0 0 0 0) (Some 200) 1 0x1234 (Some 301) 1 world_ready
      = Some (r4, w4) ∧
    trace w4 = trace world_ready ++ [EvSpi 3 out4 6 rc4 reply4] ∧
    request_frame out4 6 = request_frame out3 6.
Proof.
  apply (single_access_is_burst_of_one (relay_stub 0 [] 0 0 0 0) world_ready 200 3
           1 0x1234 300 0xAA 301).
  - reflexivity.
  - reflexivity.
  - exists (VByte 0xBB). reflexivity.
  - apply relay_stub_symmetric.
  - cbn. lia.
Defined.

(** ** The terminal configuration *)

Lemma testbit_flag a n : 0 ≤ a < 8192 → 13 ≤ n → Z.testbit a n = false.
Proof.
  intros Ha Hn. destruct (decide (a = 0)) as [->|Hnz]; [apply Z.bits_0|].
  apply Z.bits_above_log2; [lia|].
  assert (Z.log2 a < 13) by (apply Z.log2_lt_pow2; lia). lia.
Qed.

(** A speed that fits the CBAUD bits has no other bit. *)
Lemma speed_bits s n :
  Z.land s (Z.lnot CBAUD) = 0 → 0 ≤ n → Z.testbit CBAUD n = false →
  Z.testbit s n = false.
Proof.
  intros Hs Hn Hb. pose proof (f_equal (λ z, Z.testbit z n) Hs) as Hf.
  cbn beta in Hf. rewrite Z.land_spec, Z.lnot_spec, Z.bits_0, Hb in Hf by exact Hn.
  rewrite andb_true_r in Hf. exact Hf.
Qed.

Lemma speed_accepted s : Z.land s (Z.lnot CBAUD) = 0 → speed_refused s = false.
Proof. intros Hs. unfold speed_refused. rewrite Hs. reflexivity. Qed.

(** Equations between flag words built from the words [c] and [s] and
    the constants of [<termios.h>], bit by bit: [s] fits the CBAUD bits
    ([Hs]), and the constants but IBAUD0 are below 2 ^ 13. *)
Ltac flag_bits c s Hs :=
  let n := fresh "n" in
  let Hn := fresh "Hn" in
  let Hcase := fresh "Hcase" in
  apply Z.bits_inj'; intros n Hn;
  repeat first [ rewrite Z.land_spec | rewrite Z.lor_spec
               | rewrite Z.lnot_spec by exact Hn | rewrite Z.bits_0 ];
  assert (n = 0 ∨ n = 1 ∨ n = 2 ∨ n = 3 ∨ n = 4 ∨ n = 5 ∨ n = 6 ∨ n = 7 ∨ n = 8 ∨
          n = 9 ∨ n = 10 ∨ n = 11 ∨ n = 12 ∨ 13 ≤ n) as Hcase by lia;
  repeat (destruct Hcase as [-> | Hcase]);
  [ try match goal with
        | |- context [Z.testbit s ?k] =>
            rewrite (speed_bits s k Hs) by first [ exact Hn | reflexivity ]
        end;
    try match goal with
        | |- context [Z.testbit s ?k] => generalize (Z.testbit s k); intros []
        end;
    try match goal with
        | |- context [Z.testbit c ?k] => generalize (Z.testbit c k); intros []
        end;
    reflexivity ..
  | repeat match goal with
           | |- context [Z.testbit ?a n] =>
               tryif constr_eq a c then fail
               else rewrite (testbit_flag a n)
                      by first [ exact Hcase | vm_compute; split; [discriminate|reflexivity] ]
           end;
    try rewrite (speed_bits s n Hs)
      by first [ exact Hn
               | apply testbit_flag;
                 [vm_compute; split; [discriminate|reflexivity] | exact Hcase] ];
    repeat match goal with
           | |- context [Z.testbit ?a n] => generalize (Z.testbit a n); intros []
           end;
    reflexivity ].

(** The control modes, from the word [c] that [tcgetattr] gave. *)
Lemma cflag_bits c s :
  Z.land s (Z.lnot CBAUD) = 0 →
  let c2 := Z.lor (Z.land (Z.lor (Z.land c (Z.lnot (Z.lor CBAUD CBAUDEX))) s)
                          (Z.lnot (Z.lor CBAUD CBAUDEX))) s in
  let c' := Z.land (Z.land (Z.lor (Z.lor (Z.lor (Z.land c2 (Z.lnot CSIZE)) CS8) CLOCAL)
                              CREAD) (Z.lnot PARENB)) (Z.lnot CSTOPB) in
  Z.land c' speed_mask = s ∧
  Z.land c' CSIZE = CS8 ∧
  Z.land c' (Z.lor CLOCAL CREAD) = Z.lor CLOCAL CREAD ∧
  Z.land c' (Z.lor PARENB CSTOPB) = 0 ∧
  Z.land c' (Z.lnot (Z.lor cflag_mask speed_mask))
    = Z.land c (Z.lnot (Z.lor cflag_mask speed_mask)).
Proof.
  intros Hs c2 c'. unfold c', c2, cflag_mask, speed_mask.
  repeat split; flag_bits c s Hs.
Qed.

(** The input modes, after [cfsetispeed] with a speed that is not 0. *)
Lemma iflag_bits i :
  let i' := Z.land (Z.land (Z.land i (Z.lnot IBAUD0)) (Z.lnot IGNBRK))
                   (Z.lnot (Z.lor (Z.lor (Z.lor IXON IXOFF) IXANY) ICRNL)) in
  Z.land i' (Z.lor flow_mask IBAUD0) = 0 ∧
  Z.land i' (Z.lnot (Z.lor flow_mask IBAUD0))
    = Z.land i (Z.lnot (Z.lor flow_mask IBAUD0)).
Proof.
  intros i'. unfold i', flow_mask.
  repeat split; flag_bits i 0 (eq_refl : Z.land 0 (Z.lnot CBAUD) = 0).
Qed.

(** The output modes. *)
Lemma oflag_bits o :
  let o' := Z.land (Z.land o (Z.lnot IGNBRK))
                   (Z.lnot (Z.lor (Z.lor (Z.lor IXON IXOFF) IXANY) ICRNL)) in
  Z.land o' flow_mask = 0 ∧
  Z.land o' (Z.lnot flow_mask) = Z.land o (Z.lnot flow_mask).
Proof.
  intros o'. unfold o', flow_mask.
  repeat split; flag_bits o 0 (eq_refl : Z.land 0 (Z.lnot CBAUD) = 0).
Qed.

(** The two ways [set_interface_attribs_linux] ends, for a speed that is
    a [B...] constant other than [B0]. *)
Lemma set_interface_attribs_linux_cases E fd speed w :
  Z.land speed (Z.lnot CBAUD) = 0 →
  speed ≠ 0 →
  (∃ t t', ttys w !! fd = Some t ∧ raw_8N1 speed t t' ∧
           tcgetattr_rc E w fd = 0 ∧ tcsetattr_rc E w fd t' = 0 ∧
           set_interface_attribs_linux E fd speed w
             = Some (LGW_USB_SUCCESS, with_ttys (<[fd := t']> (ttys w)) w))
  ∨ set_interface_attribs_linux E fd speed w = Some (LGW_USB_ERROR, w).
Proof.
  intros Hspeed Hnz.
  destruct (ttys w !! fd) as [t|] eqn:Ht.
  2:{ right. unfold set_interface_attribs_linux, bind, tcgetattr. rewrite Ht.
      reflexivity. }
  destruct (tcgetattr_rc E w fd =? 0) eqn:Hg.
  2:{ right. unfold set_interface_attribs_linux, bind, tcgetattr. rewrite Ht, Hg.
      cbn beta iota. rewrite Hg. reflexivity. }
  assert (∃ t', set_interface_attribs_linux E fd speed w
                  = (rc <- tcsetattr E fd t' ;;
                     if negb (rc =? 0) then ret LGW_USB_ERROR else ret LGW_USB_SUCCESS) w
                ∧ raw_8N1 speed t t') as (t' & Heq & Hraw).
  { eexists. split.
    - unfold set_interface_attribs_linux. unfold bind at 1. unfold tcgetattr.
      rewrite Ht, Hg. reflexivity.
    - destruct (cflag_bits (c_cflag t) speed Hspeed) as (Hc0 & Hc1 & Hc2 & Hc3 & Hc4).
      destruct (iflag_bits (c_iflag t)) as (Hi1 & Hi2).
      destruct (oflag_bits (c_oflag t)) as (Ho1 & Ho2).
      unfold raw_8N1, cfsetospeed, cfsetispeed.
      rewrite (speed_accepted speed Hspeed), (proj2 (Z.eqb_neq speed 0) Hnz).
      cbn [c_ispeed c_ospeed c_cflag c_iflag c_oflag c_lflag c_cc
        set_c_cc set_c_lflag set_c_oflag set_c_iflag set_c_cflag].
      done. }
  rewrite Heq. unfold bind, tcsetattr. rewrite Ht.
  destruct (tcsetattr_rc E w fd t' =? 0) eqn:Hs; cbn beta iota.
  2:{ right. rewrite Hs. reflexivity. }
  left. exists t, t'. apply Z.eqb_eq in Hg, Hs. done.
Qed.

(** The two ways [set_blocking_linux] ends. *)
Lemma set_blocking_linux_cases E fd (blocking : bool) w :
  (∃ t, ttys w !! fd = Some t ∧
        set_blocking_linux E fd blocking w
          = Some (LGW_USB_SUCCESS,
                  with_ttys (<[fd := set_c_cc VTIME 1
                                        (set_c_cc VMIN (if blocking then 1 else 0) t)]>
                               (ttys w)) w))
  ∨ set_blocking_linux E fd blocking w = Some (LGW_USB_ERROR, w).
Proof.
  destruct (ttys w !! fd) as [t|] eqn:Ht.
  2:{ right. unfold set_blocking_linux, bind, tcgetattr. rewrite Ht. reflexivity. }
  destruct (tcgetattr_rc E w fd =? 0) eqn:Hg.
  2:{ right. unfold set_blocking_linux, bind, tcgetattr. rewrite Ht, Hg.
      cbn beta iota. rewrite Hg. reflexivity. }
  set (t' := set_c_cc VTIME 1 (set_c_cc VMIN (if blocking then 1 else 0) t)).
  assert (set_blocking_linux E fd blocking w
            = (rc <- tcsetattr E fd t' ;;
               if negb (rc =? 0) then ret LGW_USB_ERROR else ret LGW_USB_SUCCESS) w)
    as Heq.
  { unfold set_blocking_linux. unfold bind at 1. unfold tcgetattr.
    rewrite Ht, Hg. reflexivity. }
  rewrite Heq. unfold bind, tcsetattr. rewrite Ht.
  destruct (tcsetattr_rc E w fd t' =? 0) eqn:Hs; cbn beta iota.
  2:{ right. rewrite Hs. reflexivity. }
  left. exists t. done.
Qed.


Lemma B115200_not_B0 : B115200 ≠ 0.
Proof. discriminate. Defined.


(** ** Opening and closing *)

Lemma free_error_not_success l w w' :
  (free l ;; ret LGW_USB_ERROR) w ≠ Some (LGW_USB_SUCCESS, w').
Proof. unfold bind, free, ret. destruct (heap w !! l); discriminate. Qed.

(** Decide the test on the two return codes of the configuration. *)
Ltac decide_lor H :=
  match type of H with
  | context [negb (Z.lor ?a ?b =? 0)] =>
      let v := eval vm_compute in (negb (Z.lor a b =? 0)) in
      change (negb (Z.lor a b =? 0)) with v in H
  end.

(** What a successful [lgw_usb_open] leaves. *)
Lemma lgw_usb_open_success E com_path target_ptr w w' :
  is_Some (heap w !! target_ptr) →
  lgw_usb_open E com_path (Some target_ptr) w = Some (LGW_USB_SUCCESS, w') →
  ∃ fd t0 t1,
    0 ≤ fd ∧
    heap w' = published (heap w) target_ptr (fresh (dom (heap w))) fd ∧
    fds w' = {[fd]} ∪ fds w ∧
    rand_seed w' = 0 ∧ buf_req w' = buf_req w ∧
    raw_8N1 B115200 t0 t1 ∧
    ttys w' !! fd = Some (set_c_cc VTIME 1 (set_c_cc VMIN 1 t1)) ∧
    (∀ fd', fd' ≠ fd → ttys w' !! fd' = ttys w !! fd').
Proof.
  intros [v Hv] Hrun. unfold lgw_usb_open in Hrun.
  unfold bind at 1, malloc in Hrun.
  destruct (malloc_fails E w); [discriminate Hrun|].
  set (l := fresh (dom (heap w))) in *.
  assert (heap w !! l = None) as Hfresh by apply not_elem_of_dom, is_fresh.
  assert (target_ptr ≠ l) as Hne by congruence.
  set (w0 := with_heap (<[l := VUninit]> (heap w)) w) in *.
  unfold bind at 1, sprintf_s in Hrun.
  destruct (decide (String.length com_path < 50)%nat); [|discriminate Hrun].
  unfold ret at 1 in Hrun. unfold bind at 1, open in Hrun.
  set (fd := open_fd E w0 com_path) in *.
  destruct (fd <? 0) eqn:Hfd; cbn beta iota in Hrun; rewrite Hfd in Hrun.
  { apply free_error_not_success in Hrun. contradiction. }
  apply Z.ltb_ge in Hfd.
  match type of Hrun with context [with_ttys ?t (with_fds ?s w0)] =>
    set (w1 := with_ttys t (with_fds s w0)) in * end.
  assert (∀ fd', fd' ≠ fd → ttys w1 !! fd' = ttys w !! fd') as Hother.
  { intros fd' Hfd'. cbn. destruct (open_tty E w0 com_path).
    - apply lookup_insert_ne. congruence.
    - apply lookup_delete_ne. congruence. }
  destruct (set_interface_attribs_linux_cases E fd B115200 w1 eq_refl B115200_not_B0)
    as [(t0 & t1 & Ht0 & Hraw & _ & _ & Hrun2)|Hrun2];
    rewrite (bind_run _ _ _ _ _ Hrun2) in Hrun.
  2:{ destruct (set_blocking_linux_cases E fd true w1) as [(t & _ & Hrun3)|Hrun3];
        rewrite (bind_run _ _ _ _ _ Hrun3) in Hrun; decide_lor Hrun;
        apply free_error_not_success in Hrun; contradiction. }
  set (w2 := with_ttys (<[fd := t1]> (ttys w1)) w1) in *.
  destruct (set_blocking_linux_cases E fd true w2) as [(t & Ht & Hrun3)|Hrun3];
    rewrite (bind_run _ _ _ _ _ Hrun3) in Hrun; decide_lor Hrun.
  2:{ apply free_error_not_success in Hrun. contradiction. }
  cbn in Ht. rewrite lookup_insert_eq in Ht. injection Ht as <-.
  set (t2 := set_c_cc VTIME 1 (set_c_cc VMIN 1 t1)) in *.
  set (w3 := with_ttys (<[fd := t2]> (ttys w2)) w2) in *.
  assert (is_Some (heap w3 !! l)) as Hl3 by (cbn; rewrite lookup_insert_eq; eauto).
  rewrite (bind_run _ _ _ _ _ (store_run l (VInt fd) w3 Hl3)) in Hrun.
  assert (is_Some (heap (with_heap (<[l := VInt fd]> (heap w3)) w3) !! target_ptr)) as Hp.
  { cbn. rewrite lookup_insert_ne, lookup_insert_ne, Hv by congruence. eauto. }
  rewrite (bind_run _ _ _ _ _ (store_run target_ptr (VPtr (Some l)) _ Hp)) in Hrun.
  unfold bind at 1, srand, modify in Hrun. unfold bind at 1, mcu_ping in Hrun.
  match type of Hrun with context [ping_reply E ?w' fd] => set (w5 := w') in * end.
  destruct (ping_reply E w5 fd) as [rc version]. cbn [fst snd] in Hrun.
  destruct (rc =? 0); cbn [negb] in Hrun; [|discriminate Hrun].
  destruct (strncmp _ _ _) as [c|]; [|discriminate Hrun].
  destruct (c =? 0); cbn [negb] in Hrun; [|discriminate Hrun].
  unfold bind at 1, mcu_gpio_write at 1 in Hrun.
  unfold bind at 1, mcu_gpio_write at 1 in Hrun.
  unfold bind at 1, mcu_gpio_write at 1 in Hrun.
  destruct (negb (Z.lor _ _ =? 0)).
  { apply free_error_not_success in Hrun. contradiction. }
  injection Hrun as <-.
  exists fd, t0, t1. split; [exact Hfd|]. cbn.
  split; [unfold published; rewrite insert_insert_eq; reflexivity|].
  split; [reflexivity|]. split; [reflexivity|]. split; [reflexivity|].
  split; [exact Hraw|]. split; [apply lookup_insert_eq|].
  intros fd' Hfd'. rewrite !lookup_insert_ne by congruence. apply Hother, Hfd'.
Qed.

(** X8. On a path that fits [portname] and a valid [com_target_ptr],
    [lgw_usb_open] returns; and when it returns [LGW_USB_SUCCESS] the
    caller's pointer holds the handle, the handle's cell holds a
    descriptor that is open, no other cell has changed, the generator is
    seeded with 0, and the descriptor is a terminal at 115200 baud in raw
    8N1 mode whose VMIN and VTIME are both 1: the blocking mode set last
    replaces the VTIME of 50. *)
Theorem open_success_state E com_path target_ptr w :
  (String.length com_path < 50)%nat →
  is_Some (heap w !! target_ptr) →
  ping_comparable E →
  ∃ r w',
    lgw_usb_open E com_path (Some target_ptr) w = Some (r, w') ∧
    (r = LGW_USB_SUCCESS →
     ∃ fd t',
       0 ≤ fd ∧ fd ∈ fds w' ∧
       heap w' !! target_ptr = Some (VPtr (Some (fresh (dom (heap w))))) ∧
       heap w' !! fresh (dom (heap w)) = Some (VInt fd) ∧
       (∀ c, c ≠ target_ptr → c ≠ fresh (dom (heap w)) → heap w' !! c = heap w !! c) ∧
       rand_seed w' = 0 ∧
       ttys w' !! fd = Some t' ∧
       c_ispeed t' = B115200 ∧ c_ospeed t' = B115200 ∧
       Z.land (c_cflag t') CSIZE = CS8 ∧
       Z.land (c_cflag t') (Z.lor CLOCAL CREAD) = Z.lor CLOCAL CREAD ∧
       Z.land (c_cflag t') (Z.lor PARENB CSTOPB) = 0 ∧
       Z.land (c_iflag t') flow_mask = 0 ∧
       Z.land (c_oflag t') flow_mask = 0 ∧
       c_lflag t' = 0 ∧
       (length (c_cc t') = NCCS →
          c_cc t' !! VMIN = Some 1 ∧ c_cc t' !! VTIME = Some 1)).
Proof.
  intros Hpath Hptr Hcmp.
  destruct (lgw_usb_open_outcome E com_path target_ptr w Hpath Hptr Hcmp)
    as (r & w' & evs & Hrun & _ & _).
  exists r, w'. split; [exact Hrun|]. intros ->.
  destruct (lgw_usb_open_success E com_path target_ptr w w' Hptr Hrun)
    as (fd & t0 & t1 & Hfd & Hheap & Hfds & Hseed & _ & Hraw & Htty & _).
  assert (target_ptr ≠ fresh (dom (heap w))) as Hne.
  { destruct Hptr as [v Hv]. intros ->.
    pose proof (is_fresh (dom (heap w))) as Hfresh.
    apply not_elem_of_dom in Hfresh. congruence. }
  destruct Hraw as (Hi & Ho & _ & Hc1 & Hc2 & Hc3 & _ & Hi0 & _ & Ho1 & _ & Hl & Hcc).
  assert (Z.land (c_iflag t1) flow_mask = 0) as Hi1.
  { rewrite Z.land_lor_distr_r in Hi0. apply Z.lor_eq_0_iff in Hi0 as [Hi0 _].
    exact Hi0. }
  exists fd, (set_c_cc VTIME 1 (set_c_cc VMIN 1 t1)).
  split; [exact Hfd|].
  split; [rewrite Hfds; apply elem_of_union_l, elem_of_singleton; reflexivity|].
  rewrite Hheap. unfold published.
  split; [apply lookup_insert_eq|].
  split; [rewrite lookup_insert_ne by exact Hne; apply lookup_insert_eq|].
  split; [intros c Hc1' Hc2'; rewrite !lookup_insert_ne by congruence; reflexivity|].
  split; [exact Hseed|]. split; [exact Htty|].
  cbn [c_ispeed c_ospeed c_cflag c_iflag c_oflag c_lflag c_cc set_c_cc].
  do 8 (split; [assumption|]).
  intros Hlen. rewrite !length_insert in Hlen. split.
  - rewrite list_lookup_insert_ne by (unfold VMIN, VTIME; lia).
    apply list_lookup_insert_eq. rewrite Hlen. unfold VMIN, NCCS. lia.
  - apply list_lookup_insert_eq. rewrite length_insert, Hlen. unfold VTIME, NCCS. lia.
Qed.

Lemma open_success_state_witness :
  ∃ r w',
    lgw_usb_open (relay_stub 0 [82; 49; 46; 48; 0] 0 0 0 0) "/dev/ttyACM0" (Some 100)
      world_closed = Some (r, w') ∧
    (r = LGW_USB_SUCCESS →
     ∃ fd t',
       0 ≤ fd ∧ fd ∈ fds w' ∧
       heap w' !! 100 = Some (VPtr (Some (fresh (dom (heap world_closed))))) ∧
       heap w' !! fresh (dom (heap world_closed)) = Some (VInt fd) ∧
       (∀ c, c ≠ 100 → c ≠ fresh (dom (heap world_closed)) →
             heap w' !! c = heap world_closed !! c) ∧
       rand_seed w' = 0 ∧
       ttys w' !! fd = Some t' ∧
       c_ispeed t' = B115200 ∧ c_ospeed t' = B115200 ∧
       Z.land (c_cflag t') CSIZE = CS8 ∧
       Z.land (c_cflag t') (Z.lor CLOCAL CREAD) = Z.lor CLOCAL CREAD ∧
       Z.land (c_cflag t') (Z.lor PARENB CSTOPB) = 0 ∧
       Z.land (c_iflag t') flow_mask = 0 ∧
       Z.land (c_oflag t') flow_mask = 0 ∧
       c_lflag t' = 0 ∧
       (length (c_cc t') = NCCS →
          c_cc t' !! VMIN = Some 1 ∧ c_cc t' !! VTIME = Some 1)).
Proof.
  apply (open_success_state (relay_stub 0 [82; 49; 46; 48; 0] 0 0 0 0) "/dev/ttyACM0"
           100 world_closed).
  - cbn. lia.
  - exists (VPtr None). reflexivity.
  - apply relay_stub_comparable. exists 0. reflexivity.
Defined.

(** X9. On a path that fits [portname] and a valid [com_target_ptr],
    [lgw_usb_open] returns [LGW_USB_SUCCESS] or -1 and never closes a
    descriptor; and when it ends without a call to the relay (no memory,
    no device, or a configuration failure) it returns the error and the
    heap is as it was: the handle's cell is freed and the caller's pointer
    is untouched. *)
Theorem open_early_failure E com_path target_ptr w :
  (String.length com_path < 50)%nat →
  is_Some (heap w !! target_ptr) →
  ping_comparable E →
  ∃ r w' evs,
    lgw_usb_open E com_path (Some target_ptr) w = Some (r, w') ∧
    trace w' = trace w ++ evs ∧
    (r = LGW_USB_SUCCESS ∨ r = -1) ∧
    fds w ⊆ fds w' ∧
    (evs = [] → r = -1 ∧ heap w' = heap w).
Proof.
  intros Hpath Hptr Hcmp.
  destruct (lgw_usb_open_outcome E com_path target_ptr w Hpath Hptr Hcmp)
    as (r & w' & evs & Hrun & Htr & Hout).
  exists r, w', evs. split; [exact Hrun|]. split; [exact Htr|].
  destruct Hout as [ | w' Hheap Hfds | fd w' ? Hheap Hfds | fd rc version w' ? ? ? Hfds
                   | fd version c w' ? ? ? ? Hfds
                   | fd version x1 x2 x3 w' ? ? ? ? Hfds
                   | fd version w' ? ? ? Hfds ];
    (split; [(left; reflexivity) || (right; reflexivity)|]);
    (split; [try rewrite Hfds; try apply union_subseteq_r; reflexivity|]);
    try discriminate; intros _; (split; [reflexivity|]); done.
Qed.

Lemma broken_port_stub_comparable : ping_comparable broken_port_stub.
Proof. intros w fd. exists 0. reflexivity. Defined.

(** The early failure on the port that cannot be configured: no call to
    the relay, the error, the heap as it was, and the descriptor 3 left
    open; and the success on the stub's port. *)
Lemma open_early_failure_witness :
  (∃ w',
     lgw_usb_open broken_port_stub "/dev/ttyACM0" (Some 100) world_closed
       = Some (-1, w') ∧
     trace w' = trace world_closed ∧
     heap w' = heap world_closed ∧
     fds world_closed ⊆ fds w')
  ∧
  (∃ w',
     lgw_usb_open (relay_stub 0 [82; 49; 46; 48; 0] 0 0 0 0) "/dev/ttyACM0" (Some 100)
       world_closed = Some (LGW_USB_SUCCESS, w') ∧
     fds world_closed ⊆ fds w').
Proof.
  assert (String.length "/dev/ttyACM0" < 50)%nat as Hpath by (cbn; lia).
  assert (is_Some (heap world_closed !! 100)) as Hptr
    by (exists (VPtr None); reflexivity).
  split.
  - destruct (open_early_failure broken_port_stub "/dev/ttyACM0" 100 world_closed
                Hpath Hptr broken_port_stub_comparable)
      as (r & w' & evs & Hrun & Htr & _ & Hsub & Hearly).
    assert (evs = []) as ->.
    { pose proof Hrun as Hc. vm_compute in Hc. injection Hc as _ Hw.
      rewrite <- Hw in Htr. vm_compute in Htr. symmetry. exact Htr. }
    destruct (Hearly eq_refl) as [-> Hheap].
    exists w'. split; [exact Hrun|]. split; [rewrite Htr; apply app_nil_r|].
    split; [exact Hheap|exact Hsub].
  - destruct (open_early_failure (relay_stub 0 [82; 49; 46; 48; 0] 0 0 0 0)
                "/dev/ttyACM0" 100 world_closed Hpath Hptr
                (relay_stub_comparable 0 [82; 49; 46; 48; 0] 0 0 0 0
                   (ex_intro _ 0 eq_refl)))
      as (r & w' & evs & Hrun & _ & _ & Hsub & _).
    assert (r = LGW_USB_SUCCESS) as ->.
    { pose proof Hrun as Hc. vm_compute in Hc. injection Hc as Hr _.
      symmetry. exact Hr. }
    exists w'. split; [exact Hrun|exact Hsub].
Defined.

(** X10. On a path that fits [portname] and a valid [com_target_ptr],
    when one of the GPIO writes of the reset fails, [lgw_usb_open] leaves
    the caller's pointer holding the handle it has freed: the cell is no
    longer allocated, and closing through that pointer is undefined. *)
Theorem reset_failure_leaves_dangling_handle E com_path target_ptr w :
  (String.length com_path < 50)%nat →
  is_Some (heap w !! target_ptr) →
  ping_comparable E →
  ∃ r w' evs,
    lgw_usb_open E com_path (Some target_ptr) w = Some (r, w') ∧
    trace w' = trace w ++ evs ∧
    ((∃ rc, rc ∈ gpio_codes evs ∧ rc ≠ 0) →
     ∃ l, heap w' !! target_ptr = Some (VPtr (Some l)) ∧
          heap w' !! l = None ∧
          lgw_usb_close E (Some l) w' = None).
Proof.
  intros Hpath Hptr Hcmp.
  destruct (lgw_usb_open_outcome E com_path target_ptr w Hpath Hptr Hcmp)
    as (r & w' & evs & Hrun & Htr & Hout).
  exists r, w', evs. split; [exact Hrun|]. split; [exact Htr|].
  intros (rc & Hrc & Hnz).
  assert (target_ptr ≠ fresh (dom (heap w))) as Hne.
  { destruct Hptr as [v Hv]. intros ->.
    pose proof (is_fresh (dom (heap w))) as Hfresh.
    apply not_elem_of_dom in Hfresh. congruence. }
  destruct Hout as [ | ? ? ? | ? ? ? ? ? | ? ? ? ? ? ? ? ?
                   | ? ? ? ? ? ? ? ? ?
                   | fd version x1 x2 x3 w' ? ? ? Hheap ?
                   | ? ? ? ? ? ? ? ];
    cbn [gpio_codes omap list_omap] in Hrc;
    try (apply elem_of_nil in Hrc; contradiction).
  - exists (fresh (dom (heap w))).
    assert (heap w' !! fresh (dom (heap w)) = None) as Hgone
      by (rewrite Hheap; apply lookup_delete_eq).
    split; [|split; [exact Hgone|]].
    + rewrite Hheap, lookup_delete_ne by congruence. apply lookup_insert_eq.
    + unfold lgw_usb_close, bind, load_int. rewrite Hgone. reflexivity.
  - exfalso. apply Hnz.
    repeat (apply elem_of_cons in Hrc as [Hrc|Hrc]; [exact Hrc|]).
    apply elem_of_nil in Hrc. contradiction.
Qed.

Lemma reset_failure_leaves_dangling_handle_witness :
  ∃ r w' evs,
    lgw_usb_open (relay_stub 0 [82; 49; 46; 48; 0] 1 0 0 0) "/dev/ttyACM0" (Some 100)
      world_closed = Some (r, w') ∧
    trace w' = trace world_closed ++ evs ∧
    ((∃ rc, rc ∈ gpio_codes evs ∧ rc ≠ 0) →
     ∃ l, heap w' !! 100 = Some (VPtr (Some l)) ∧
          heap w' !! l = None ∧
          lgw_usb_close (relay_stub 0 [82; 49; 46; 48; 0] 1 0 0 0) (Some l) w' = None).
Proof.
  apply (reset_failure_leaves_dangling_handle (relay_stub 0 [82; 49; 46; 48; 0] 1 0 0 0)
           "/dev/ttyACM0" 100 world_closed).
  - cbn. lia.
  - exists (VPtr None). reflexivity.
  - apply relay_stub_comparable. exists 0. reflexivity.
Defined.

(** What [lgw_usb_close] leaves on a valid handle. *)
Lemma lgw_usb_close_world E w target fd :
  heap w !! target = Some (VInt fd) →
  lgw_usb_close E (Some target) w
    = Some (if close_rc E w fd <? 0 then LGW_USB_ERROR else LGW_USB_SUCCESS,
            with_heap (delete target (heap w))
              (with_ttys (delete fd (ttys w)) (with_fds (fds w ∖ {[fd]}) w))).
Proof.
  intros Hh. unfold lgw_usb_close, bind, load_int, close, free, ret. rewrite Hh.
  cbn [heap with_ttys with_fds]. rewrite Hh.
  destruct (close_rc E w fd <? 0); reflexivity.
Qed.

(** X11. Opening and then closing: after a successful [lgw_usb_open],
    [lgw_usb_close] on the handle the caller's pointer holds returns, with
    [LGW_USB_ERROR] when the kernel's [close] answered a negative number
    and [LGW_USB_SUCCESS] otherwise; the heap is the one before the open
    but for the caller's pointer, which still holds the freed handle; and
    when the kernel's [close] succeeded the descriptor is no longer
    open. *)
Theorem open_then_close E com_path target_ptr w :
  (String.length com_path < 50)%nat →
  is_Some (heap w !! target_ptr) →
  ping_comparable E →
  ∃ r w',
    lgw_usb_open E com_path (Some target_ptr) w = Some (r, w') ∧
    (r = LGW_USB_SUCCESS →
     ∃ l fd r2 w'',
       heap w' !! target_ptr = Some (VPtr (Some l)) ∧
       heap w' !! l = Some (VInt fd) ∧
       lgw_usb_close E (Some l) w' = Some (r2, w'') ∧
       heap w'' = <[target_ptr := VPtr (Some l)]> (heap w) ∧
       r2 = (if close_rc E w' fd <? 0 then LGW_USB_ERROR else LGW_USB_SUCCESS) ∧
       (0 ≤ close_rc E w' fd → fd ∉ fds w'')).
Proof.
  intros Hpath Hptr Hcmp.
  destruct (lgw_usb_open_outcome E com_path target_ptr w Hpath Hptr Hcmp)
    as (r & w' & evs & Hrun & _ & _).
  exists r, w'. split; [exact Hrun|]. intros ->.
  destruct (lgw_usb_open_success E com_path target_ptr w w' Hptr Hrun)
    as (fd & t0 & t1 & Hfd & Hheap & Hfds & _).
  set (l := fresh (dom (heap w))) in *.
  assert (heap w !! l = None) as Hfresh by apply not_elem_of_dom, is_fresh.
  assert (target_ptr ≠ l) as Hne by (destruct Hptr as [v Hv]; congruence).
  assert (heap w' !! l = Some (VInt fd)) as Hl.
  { rewrite Hheap. unfold published. rewrite lookup_insert_ne by exact Hne.
    apply lookup_insert_eq. }
  assert (delete l (heap w') = <[target_ptr := VPtr (Some l)]> (heap w)) as Hdel.
  { rewrite Hheap. unfold published.
    rewrite delete_insert_ne by congruence. f_equal. apply delete_insert_id, Hfresh. }
  exists l, fd. eexists _, _.
  split; [rewrite Hheap; apply lookup_insert_eq|].
  split; [exact Hl|].
  split; [exact (lgw_usb_close_world E w' l fd Hl)|].
  split; [exact Hdel|]. split; [reflexivity|].
  intros _. cbn [fds with_heap with_ttys with_fds].
  apply not_elem_of_difference. right. apply elem_of_singleton. reflexivity.
Qed.

(** A successful open, then a close that succeeds. *)
Lemma open_then_close_witness :
  ∃ w' l fd w'',
    lgw_usb_open (relay_stub 0 [82; 49; 46; 48; 0] 0 0 0 0) "/dev/ttyACM0" (Some 100)
      world_closed = Some (LGW_USB_SUCCESS, w') ∧
    heap w' !! 100 = Some (VPtr (Some l)) ∧
    heap w' !! l = Some (VInt fd) ∧
    lgw_usb_close (relay_stub 0 [82; 49; 46; 48; 0] 0 0 0 0) (Some l) w'
      = Some (LGW_USB_SUCCESS, w'') ∧
    heap w'' = <[100 := VPtr (Some l)]> (heap world_closed) ∧
    fd ∉ fds w''.
Proof.
  assert (String.length "/dev/ttyACM0" < 50)%nat as Hpath by (cbn; lia).
  assert (is_Some (heap world_closed !! 100)) as Hptr
    by (exists (VPtr None); reflexivity).
  destruct (open_then_close (relay_stub 0 [82; 49; 46; 48; 0] 0 0 0 0)
              "/dev/ttyACM0" 100 world_closed Hpath Hptr
              (relay_stub_comparable 0 [82; 49; 46; 48; 0] 0 0 0 0
                 (ex_intro _ 0 eq_refl)))
    as (r & w' & Hrun & Hsucc).
  assert (r = LGW_USB_SUCCESS) as ->.
  { pose proof Hrun as Hc. vm_compute in Hc. injection Hc as Hr _.
    symmetry. exact Hr. }
  destruct (Hsucc eq_refl) as (l & fd & r2 & w'' & Hp & Hl & Hclose & Hheap & -> & Hgone).
  exists w', l, fd, w''. split; [exact Hrun|]. split; [exact Hp|]. split; [exact Hl|].
  split; [exact Hclose|]. split; [exact Hheap|]. apply Hgone. cbn. lia.
Defined.



(** X13. A null handle, or a null data pointer where one is taken, is
    refused with [LGW_USB_ERROR] before the handle is read and before any
    call to the relay: the world is as it was, also when the other
    pointer is dangling.  The burst functions first declare [in_buf], so
    this holds for them when the 16-bit frame length is not 0. *)
Theorem null_arguments_refused E w com_path target mux address data size :
  lgw_usb_open E com_path None w = Some (LGW_USB_ERROR, w) ∧
  lgw_usb_close E None w = Some (LGW_USB_ERROR, w) ∧
  lgw_usb_w E None mux address data w = Some (LGW_USB_ERROR, w) ∧
  lgw_usb_r E None mux address (Some data) w = Some (LGW_USB_ERROR, w) ∧
  lgw_usb_r E (Some target) mux address None w = Some (LGW_USB_ERROR, w) ∧
  (0 < u16 (size + 4) →
   lgw_usb_wb E None mux address (Some data) size w = Some (LGW_USB_ERROR, w) ∧
   lgw_usb_wb E (Some target) mux address None size w = Some (LGW_USB_ERROR, w)) ∧
  (0 < u16 (size + 5) →
   lgw_usb_rb E None mux address (Some data) size w = Some (LGW_USB_ERROR, w) ∧
   lgw_usb_rb E (Some target) mux address None size w = Some (LGW_USB_ERROR, w)).
Proof.
  do 5 (split; [reflexivity|]).
  split; intros Hvla; [unfold lgw_usb_wb|unfold lgw_usb_rb]; unfold vla;
    rewrite decide_True by exact Hvla; split; reflexivity.
Qed.
